(** * Sens Prism Python SDK: the client and its error taxonomy

    A shallow embedding of [sdk/python/sens/exceptions.py] and
    [sdk/python/sens/client.py], with the statements of the SDK's
    specification proved (or refuted) on it.

    Python strings are modelled by [string], read as sequences of code
    points below 256.  Values decoded from JSON are the inductive type
    [json]; dictionaries are finite maps.  The HTTP transport ([httpx]), the
    process environment and the file system are not part of the SDK: they
    sit in an explicit [World] through which every operation is threaded.

    What is taken from outside the SDK:
    - [httpx.Client(...)] encodes the default headers as ASCII and raises
      [UnicodeEncodeError] when it cannot; the client it returns stays
      open: [close] and the calls after it are not modelled;
    - one call of [get], [post] or [delete] on that client is at most one
      request on the wire: [httpx] either refuses the call with an
      exception before anything is sent (a URL it finds invalid, a JSON
      body it cannot encode), or sends the request once and comes back
      with a response or with an exception of the transport ([httpx]
      neither retries nor follows redirects unless asked to);
    - nothing else changes the environment or the file system while an
      operation runs. *)

From Stdlib Require Import ZArith String Ascii List Bool Lia.
From Stdlib Require Import Floats.SpecFloat.
From stdpp Require Import base option list gmap strings pretty.

Set Warnings "-register-all".

Local Open Scope Z_scope.

(** ** Python values *)

(** What [json.loads] can return.  Python's [None] is [JNull]. *)
Inductive json : Type :=
| JNull
| JBool (b : bool)
| JInt (n : Z)
| JFloat (x : spec_float)
| JStr (s : string)
| JArr (items : list json)
| JObj (fields : gmap string json).

(** Exceptions that can leave the client. The eight [Sens...] constructors
    follow the class hierarchy of [exceptions.py]; the others are Python's
    own and [httpx]'s, [TransportError] standing for whatever [httpx]
    raises when a request was sent and no response arrives, [InvalidURL]
    for its refusal of a URL. *)
Record SensErrorFields : Type := MkSensError {
  message : json;
  code : json;
  details : json
}.

Inductive OSErrorKind : Type :=
| FileNotFound
| IsADirectory
| PermissionDenied.

Inductive exn : Type :=
| SensError (e : SensErrorFields)
| SensAuthError (e : SensErrorFields)
| SensRateLimitError (e : SensErrorFields) (retry_after : option Z)
| SensNotFoundError (e : SensErrorFields)
| SensValidationError (e : SensErrorFields)
| SensConflictError (e : SensErrorFields)
| SensPayloadTooLargeError (e : SensErrorFields)
| SensServiceUnavailableError (e : SensErrorFields) (retry_after : option Z)
| KeyError (key : string)
| TypeError
| AttributeError
| ValueError
| OSError (kind : OSErrorKind)
| TransportError
| UnicodeEncodeError
| InvalidURL.

(** A computation that returns or raises. *)
Inductive result (A : Type) : Type :=
| Ok (a : A)
| Raise (e : exn).
Arguments Ok {A} a.
Arguments Raise {A} e.

#[global] Instance result_ret : MRet result := fun A a => Ok a.
#[global] Instance result_bind : MBind result := fun A B f m =>
  match m with
  | Ok a => f a
  | Raise e => Raise e
  end.

(** Truth value of a Python object ([bool(v)]). *)
Definition py_truthy (v : json) : bool :=
  match v with
  | JNull => false
  | JBool b => b
  | JInt n => negb (n =? 0)
  | JFloat (S754_zero _) => false
  | JFloat _ => true
  | JStr s => negb (String.eqb s "")%string
  | JArr items => match items with [] => false | _ => true end
  | JObj fields => negb (Nat.eqb (size fields) 0)
  end.

(** [a or b] *)
Definition py_or (a b : json) : json := if py_truthy a then a else b.

(** [v.get(k, dflt)]: only dictionaries have [get]. *)
Definition py_get (v : json) (k : string) (dflt : json) : result json :=
  match v with
  | JObj fields => Ok (default dflt (fields !! k))
  | _ => Raise AttributeError
  end.

(** [v[k]] with a string key: a dictionary without the key raises
    [KeyError]; lists and strings want integer indices and the remaining
    values are not subscriptable, all of which is [TypeError]. *)
Definition py_getitem (v : json) (k : string) : result json :=
  match v with
  | JObj fields =>
      match fields !! k with
      | Some x => Ok x
      | None => Raise (KeyError k)
      end
  | _ => Raise TypeError
  end.

Fixpoint chars_of (s : string) : list json :=
  match s with
  | EmptyString => []
  | String c s' => JStr (String c EmptyString) :: chars_of s'
  end.

(** [for s in v]: the elements of a list, the keys of a dictionary, the
    characters of a string; nothing else is iterable. *)
Definition py_iter (v : json) : result (list json) :=
  match v with
  | JArr items => Ok items
  | JObj fields => Ok (JStr <$> (map_to_list fields).*1)
  | JStr s => Ok (chars_of s)
  | _ => Raise TypeError
  end.

(** A list comprehension whose element expression may raise: elements are
    evaluated left to right and the first exception ends the loop. *)
Fixpoint comprehension {A B : Type} (f : A → result B) (l : list A)
  : result (list B) :=
  match l with
  | [] => Ok []
  | x :: l' =>
      y ← f x;
      ys ← comprehension f l';
      Ok (y :: ys)
  end.

(** [sep.join(l)] *)
Fixpoint str_join (sep : string) (l : list string) : string :=
  match l with
  | [] => ""
  | [x] => x
  | x :: l' => x +:+ sep +:+ str_join sep l'
  end.

(** [s.rstrip("/")] *)
Fixpoint rstrip_slash (s : string) : string :=
  match s with
  | EmptyString => EmptyString
  | String c s' =>
      let r := rstrip_slash s' in
      if Ascii.eqb c "/" && String.eqb r "" then EmptyString else String c r
  end.

(** *** [int(s)] on a string, base ten

    Leading and trailing white space is dropped, one sign is allowed, and
    the digits may be grouped by single underscores.  Anything else is
    [ValueError] ([None] here), and so is a literal with more digits than
    the interpreter's limit for integer strings when it has one (4300 by
    default from CPython 3.11 on). *)
Definition is_space (c : ascii) : bool :=
  let n := nat_of_ascii c in
  ((9 <=? n) && (n <=? 13) || (n =? 32) || (n =? 133) || (n =? 160))%nat.

Definition digit_of (c : ascii) : option Z :=
  let n := nat_of_ascii c in
  if ((48 <=? n) && (n <=? 57))%nat then Some (Z.of_nat (n - 48)) else None.

Fixpoint lstrip_space (s : string) : string :=
  match s with
  | String c s' => if is_space c then lstrip_space s' else s
  | EmptyString => EmptyString
  end.

(** Reads digits (and underscores between digits) after a first digit:
    the value, the number of digits read, and the unread rest. *)
Fixpoint int_digits (acc : Z) (n : nat) (s : string)
  : option (Z * nat * string) :=
  match s with
  | EmptyString => Some (acc, n, s)
  | String c s' =>
      match digit_of c with
      | Some d => int_digits (acc * 10 + d) (S n) s'
      | None =>
          if Ascii.eqb c "_" then
            match s' with
            | String c' s'' =>
                match digit_of c' with
                | Some d => int_digits (acc * 10 + d) (S n) s''
                | None => None
                end
            | EmptyString => None
            end
          else Some (acc, n, s)
      end
  end.

Definition int_unsigned (limit : option nat) (s : string) : option Z :=
  match s with
  | String c s' =>
      match digit_of c with
      | Some d =>
          '(v, n, rest) ← int_digits d 1 s';
          if String.eqb (lstrip_space rest) "" then
            match limit with
            | Some m => if (m <? n)%nat then None else Some v
            | None => Some v
            end
          else None
      | None => None
      end
  | EmptyString => None
  end.

Definition py_int (limit : option nat) (s : string) : option Z :=
  match lstrip_space s with
  | String "+" s' => int_unsigned limit s'
  | String "-" s' => Z.opp <$> int_unsigned limit s'
  | s' => int_unsigned limit s'
  end.

(** ** [exceptions.py] *)

(** [SensError.__init__(self, message, code=None, details=None)] keeps
    [message] and [code] and stores [details or {}]. Every subclass
    reaches it, directly or through [super().__init__(message, **kwargs)]. *)
Definition SensError_init (message code details : json) : SensErrorFields :=
  {| message := message; code := code; details := py_or details (JObj ∅) |}.

(** The taxonomy member an exception belongs to, if any. *)
Inductive SensKind : Type :=
| Generic
| Authentication
| RateLimit
| NotFound
| Validation
| Conflict
| PayloadTooLarge
| ServiceUnavailable.

Definition sens_kind (e : exn) : option SensKind :=
  match e with
  | SensError _ => Some Generic
  | SensAuthError _ => Some Authentication
  | SensRateLimitError _ _ => Some RateLimit
  | SensNotFoundError _ => Some NotFound
  | SensValidationError _ => Some Validation
  | SensConflictError _ => Some Conflict
  | SensPayloadTooLargeError _ => Some PayloadTooLarge
  | SensServiceUnavailableError _ _ => Some ServiceUnavailable
  | _ => None
  end.

Definition sens_fields (e : exn) : option SensErrorFields :=
  match e with
  | SensError f | SensAuthError f | SensRateLimitError f _
  | SensNotFoundError f | SensValidationError f | SensConflictError f
  | SensPayloadTooLargeError f | SensServiceUnavailableError f _ => Some f
  | _ => None
  end.

(** The [retry_after] attribute: only two classes have it ([None] here
    when the class has none, [Some None] when it holds Python's [None]). *)
Definition sens_retry_after (e : exn) : option (option Z) :=
  match e with
  | SensRateLimitError _ r | SensServiceUnavailableError _ r => Some r
  | _ => None
  end.

(** [SensError.__str__], inherited by every subclass, on an error whose
    [message] is a string and whose [code] is a string or [None], the types
    the constructor declares: ["[<code>] <message>"] when [code] is true,
    the message alone otherwise.  [None] here: a field of another type. *)
Definition SensError_str (f : SensErrorFields) : option string :=
  match message f, code f with
  | JStr m, JStr c =>
      Some (if negb (String.eqb c "") then "[" +:+ c +:+ "] " +:+ m else m)
  | JStr m, JNull => Some m
  | _, _ => None
  end.

(** ** The world outside the SDK *)

Inductive Method : Type := GET | POST | DELETE.

(** What the client hands to [httpx]: the method, the URL and the
    [files], [data] and [json] keyword arguments when given.  [files] maps
    a form field to the path of the file opened for it. *)
Record Request : Type := MkRequest {
  req_method : Method;
  req_url : string;
  req_files : option (gmap string string);
  req_data : option (gmap string string);
  req_json : option json
}.

(** An [httpx.Response] as far as the client looks at it: [status_code],
    the outcome of [response.json()] ([None] when that call raises) and the
    headers, keyed by the name under which the client looks them up. *)
Record Response : Type := MkResponse {
  status_code : Z;
  response_json : option json;
  headers : gmap string string
}.

(** What a call on the [httpx] client comes to: the request is sent and
    answered; it is sent and the transport fails; or [httpx] refuses it
    with [e] before anything is sent. *)
Inductive NetOutcome : Type :=
| Responded (r : Response)
| TransportFailure
| Refused (e : exn).

Inductive FsEntry : Type :=
| RegularFile (readable : bool)
| Directory.

#[global] Instance FsEntry_eq_dec : EqDecision FsEntry.
Proof. solve_decision. Defined.

(** [httpx] and the server together are an oracle over the requests sent
    so far followed by the one now asked for; [sent] is the log of the
    requests that went on the wire. *)
Record World : Type := MkWorld {
  environ : gmap string string;
  fs : gmap string FsEntry;
  network : list Request → NetOutcome;
  sent : list Request
}.

(** Operations read and change the world and return or raise. *)
Definition io (A : Type) : Type := World → result A * World.

#[global] Instance io_ret : MRet io := fun A a w => (Ok a, w).
#[global] Instance io_bind : MBind io := fun A B f m w =>
  match m w with
  | (Ok a, w') => f a w'
  | (Raise e, w') => (Raise e, w')
  end.

Definition raise {A : Type} (e : exn) : io A := fun w => (Raise e, w).

Definition lift {A : Type} (r : result A) : io A := fun w => (r, w).

(** [os.getenv(name)] *)
Definition getenv (name : string) : io (option string) :=
  fun w => (Ok (environ w !! name), w).

(** [os.path.exists(path)] *)
Definition path_exists (path : string) : io bool :=
  fun w => (Ok (bool_decide (is_Some (fs w !! path))), w).

(** [open(path, "rb")] *)
Definition open_rb (path : string) : io unit :=
  fun w =>
    match fs w !! path with
    | Some (RegularFile true) => (Ok tt, w)
    | Some (RegularFile false) => (Raise (OSError PermissionDenied), w)
    | Some Directory => (Raise (OSError IsADirectory), w)
    | None => (Raise (OSError FileNotFound), w)
    end.

Definition log_request (req : Request) (w : World) : World :=
  {| environ := environ w; fs := fs w; network := network w;
     sent := sent w ++ [req] |}.

(** One call of [self._client.get/post/delete]: [httpx] refuses the
    request and raises with nothing sent, or the request goes on the wire
    once and the transport answers or fails. *)
Definition send (req : Request) : io Response :=
  fun w =>
    let w' := log_request req w in
    match network w (sent w') with
    | Responded r => (Ok r, w')
    | TransportFailure => (Raise TransportError, w')
    | Refused e => (Raise e, w)
    end.

(** ** [client.py]: typed results *)

Module Document.
Record t : Type := Make {
  id : json;
  status : json;
  title : json;
  size_bytes : json;
  tags : json;
  created_at : json;
  estimated_ready_at : json;
  ready_at : json;
  page_count : json;
  chunk_count : json;
  concept_count : json
}.
End Document.

Module Source.
Record t : Type := Make {
  document_id : json;
  document_title : json;
  page : json;
  excerpt : json;
  confidence_score : json;
  semantic_layer : json;
  matched_concepts : json;
  pragmatic_insights : json
}.
End Source.

Module QueryResult.
Record t : Type := Make {
  query_id : json;
  query : json;
  answer : json;
  confidence_score : json;
  processing_time_ms : json;
  sources : list Source.t
}.
End QueryResult.

Module ContextRail.
Record t : Type := Make {
  query_id : json;
  query : json;
  retrieved_at : json;
  sources : list Source.t;
  summary : json
}.
End ContextRail.

(** ** [client.py]: [SensClient] *)

(** The [httpx.Client] built by the constructor. *)
Record HttpxClient : Type := MkHttpxClient {
  client_headers : gmap string string;
  client_timeout : Z
}.

Record SensClient : Type := MkSensClient {
  api_key : string;
  base_url : string;
  timeout : Z;
  _client : HttpxClient
}.

Definition str_nonempty (s : string) : bool := negb (String.eqb s "").

(** [_get_headers] *)
Definition get_headers (api_key : string) : gmap string string :=
  {[ "Authorization" := "Bearer " +:+ api_key;
     "Content-Type" := "application/json";
     "User-Agent" := "sens-prism-sdk/0.4.0" ]}.

(** [s.encode("ascii")] succeeds. *)
Fixpoint is_ascii (s : string) : bool :=
  match s with
  | EmptyString => true
  | String c s' => (nat_of_ascii c <? 128)%nat && is_ascii s'
  end.

(** [httpx.Client(headers=headers, timeout=timeout)]: the names and values
    of the headers are encoded as ASCII, which raises on a character
    outside it. *)
Definition httpx_Client (headers : gmap string string) (timeout : Z)
  : result HttpxClient :=
  if bool_decide
       (map_Forall (λ k v, is_ascii k && is_ascii v = true) headers)
  then Ok {| client_headers := headers; client_timeout := timeout |}
  else Raise UnicodeEncodeError.


(** [SensClient.__init__(api_key, base_url, timeout)] *)
Definition SensClient_init (api_key : option string) (base_url : string)
    (timeout : Z) : io SensClient :=
  key ← match api_key with
        | Some k => if str_nonempty k then mret (Some k)
                    else getenv "SENS_API_KEY"
        | None => getenv "SENS_API_KEY"
        end;
  match key with
  | Some k =>
      if str_nonempty k then
        client ← lift (httpx_Client (get_headers k) timeout);
        mret {| api_key := k;
                base_url := rstrip_slash base_url;
                timeout := timeout;
                _client := client |}
      else
        raise (SensValidationError (SensError_init
          (JStr "API key required. Provide 'api_key' parameter or set SENS_API_KEY environment variable.")
          (JStr "SENS_003") JNull))
  | None =>
      raise (SensValidationError (SensError_init
        (JStr "API key required. Provide 'api_key' parameter or set SENS_API_KEY environment variable.")
        (JStr "SENS_003") JNull))
  end.

Section Client.

(** The interpreter's limit on the digits of an integer string, if any
    ([sys.get_int_max_str_digits()]). *)
Variable int_max_str_digits : option nat.

(** [int(retry_after) if retry_after else None] on the value of
    [response.headers.get("Retry-After")] *)
Definition parse_retry_after (retry_after : option string)
  : result (option Z) :=
  match retry_after with
  | Some s =>
      if str_nonempty s then
        match py_int int_max_str_digits s with
        | Some n => Ok (Some n)
        | None => Raise ValueError
        end
      else Ok None
  | None => Ok None
  end.

Definition is_success (status : Z) : bool :=
  (status =? 200) || (status =? 201) || (status =? 202) || (status =? 204).

(** [_handle_response(self, response)] *)
Definition handle_response (response : Response) : result json :=
  let data := match response_json response with
              | Some v => v
              | None => JObj ∅
              end in
  let status := status_code response in
  if is_success status then Ok data
  else
    error_message ← py_get data "message" (JStr ("HTTP " +:+ pretty status));
    error_code ← py_get data "code" JNull;
    error_details ← py_get data "details" (JObj ∅);
    if status =? 400 then
      Raise (SensValidationError
               (SensError_init error_message error_code error_details))
    else if status =? 401 then
      Raise (SensAuthError
               (SensError_init error_message error_code error_details))
    else if status =? 403 then
      Raise (SensAuthError
               (SensError_init error_message error_code error_details))
    else if status =? 404 then
      Raise (SensNotFoundError
               (SensError_init error_message error_code error_details))
    else if status =? 409 then
      Raise (SensConflictError
               (SensError_init error_message error_code error_details))
    else if status =? 413 then
      Raise (SensPayloadTooLargeError
               (SensError_init error_message error_code error_details))
    else if status =? 429 then
      retry_after ← parse_retry_after (headers response !! "Retry-After");
      Raise (SensRateLimitError
               (SensError_init error_message error_code error_details)
               retry_after)
    else if status =? 503 then
      retry_after ← parse_retry_after (headers response !! "Retry-After");
      Raise (SensServiceUnavailableError
               (SensError_init error_message error_code error_details)
               retry_after)
    else
      Raise (SensError
               (SensError_init error_message error_code error_details)).

Definition opt_get (v : json) (k : string) : result json := py_get v k JNull.

(** [upload_document(self, file_path, title=None, tags=None)] *)
Definition upload_document (self : SensClient) (file_path : string)
    (title : option string) (tags : option (list string))
  : io Document.t :=
  found ← path_exists file_path;
  if negb found then
    raise (SensValidationError (SensError_init
             (JStr ("File not found: " +:+ file_path)) (JStr "SENS_003") JNull))
  else
    _ ← open_rb file_path;
    let files : gmap string string := {[ "file" := file_path ]} in
    let data : gmap string string := ∅ in
    let data := match title with
                | Some t => if str_nonempty t then <["title" := t]> data
                            else data
                | None => data
                end in
    let data := match tags with
                | Some (x :: l) => <["tags" := str_join "," (x :: l)]> data
                | _ => data
                end in
    response ← send {| req_method := POST;
                       req_url := base_url self +:+ "/documents";
                       req_files := Some files;
                       req_data := if decide (data = ∅) then None
                                   else Some data;
                       req_json := None |};
    lift (result ← handle_response response;
          id ← py_getitem result "id";
          status ← py_getitem result "status";
          title ← opt_get result "title";
          size_bytes ← opt_get result "size_bytes";
          tags ← opt_get result "tags";
          created_at ← opt_get result "created_at";
          estimated_ready_at ← opt_get result "estimated_ready_at";
          Ok {| Document.id := id;
                Document.status := status;
                Document.title := title;
                Document.size_bytes := size_bytes;
                Document.tags := tags;
                Document.created_at := created_at;
                Document.estimated_ready_at := estimated_ready_at;
                Document.ready_at := JNull;
                Document.page_count := JNull;
                Document.chunk_count := JNull;
                Document.concept_count := JNull |}).

(** [get_document(self, document_id)] *)
Definition get_document (self : SensClient) (document_id : string)
  : io Document.t :=
  response ← send {| req_method := GET;
                     req_url := base_url self +:+ "/documents/"
                                +:+ document_id;
                     req_files := None;
                     req_data := None;
                     req_json := None |};
  lift (result ← handle_response response;
        id ← py_getitem result "id";
        status ← py_getitem result "status";
        title ← opt_get result "title";
        size_bytes ← opt_get result "size_bytes";
        tags ← opt_get result "tags";
        created_at ← opt_get result "created_at";
        ready_at ← opt_get result "ready_at";
        page_count ← opt_get result "page_count";
        chunk_count ← opt_get result "chunk_count";
        concept_count ← opt_get result "concept_count";
        Ok {| Document.id := id;
              Document.status := status;
              Document.title := title;
              Document.size_bytes := size_bytes;
              Document.tags := tags;
              Document.created_at := created_at;
              Document.estimated_ready_at := JNull;
              Document.ready_at := ready_at;
              Document.page_count := page_count;
              Document.chunk_count := chunk_count;
              Document.concept_count := concept_count |}).

(** [delete_document(self, document_id)] *)
Definition delete_document (self : SensClient) (document_id : string)
  : io unit :=
  response ← send {| req_method := DELETE;
                     req_url := base_url self +:+ "/documents/"
                                +:+ document_id;
                     req_files := None;
                     req_data := None;
                     req_json := None |};
  lift (_ ← handle_response response; Ok tt).

(** [query(self, query, document_ids=None, tags=None, limit=3,
    confidence_threshold=0.5)] *)
Definition query (self : SensClient) (query : string)
    (document_ids tags : option (list string)) (limit : Z)
    (confidence_threshold : spec_float)
  : io QueryResult.t :=
  let payload : gmap string json :=
    {[ "query" := JStr query;
       "limit" := JInt limit;
       "confidence_threshold" := JFloat confidence_threshold ]} in
  let payload := match document_ids with
                 | Some (x :: l) =>
                     <["document_ids" := JArr (JStr <$> x :: l)]> payload
                 | _ => payload
                 end in
  let payload := match tags with
                 | Some (x :: l) =>
                     <["tags" := JArr (JStr <$> x :: l)]> payload
                 | _ => payload
                 end in
  response ← send {| req_method := POST;
                     req_url := base_url self +:+ "/query";
                     req_files := None;
                     req_data := None;
                     req_json := Some (JObj payload) |};
  lift (result ← handle_response response;
        listed ← py_get result "sources" (JArr []);
        entries ← py_iter listed;
        sources ← comprehension (fun s =>
          document_id ← py_getitem s "document_id";
          document_title ← opt_get s "document_title";
          page ← opt_get s "page";
          confidence_score ← opt_get s "confidence_score";
          Ok {| Source.document_id := document_id;
                Source.document_title := document_title;
                Source.page := page;
                Source.excerpt := JNull;
                Source.confidence_score := confidence_score;
                Source.semantic_layer := JNull;
                Source.matched_concepts := JNull;
                Source.pragmatic_insights := JNull |}) entries;
        query_id ← py_getitem result "query_id";
        query ← py_getitem result "query";
        answer ← py_getitem result "answer";
        confidence_score ← py_getitem result "confidence_score";
        processing_time_ms ← py_getitem result "processing_time_ms";
        Ok {| QueryResult.query_id := query_id;
              QueryResult.query := query;
              QueryResult.answer := answer;
              QueryResult.confidence_score := confidence_score;
              QueryResult.processing_time_ms := processing_time_ms;
              QueryResult.sources := sources |}).

(** [get_context_rail(self, query_id)] *)
Definition get_context_rail (self : SensClient) (query_id : string)
  : io ContextRail.t :=
  response ← send {| req_method := GET;
                     req_url := base_url self +:+ "/context-rail/"
                                +:+ query_id;
                     req_files := None;
                     req_data := None;
                     req_json := None |};
  lift (result ← handle_response response;
        listed ← py_get result "sources" (JArr []);
        entries ← py_iter listed;
        sources ← comprehension (fun s =>
          document_id ← py_getitem s "document_id";
          document_title ← opt_get s "document_title";
          page ← opt_get s "page";
          excerpt ← opt_get s "excerpt";
          confidence_score ← opt_get s "confidence_score";
          semantic_layer ← opt_get s "semantic_layer";
          matched_concepts ← opt_get s "matched_concepts";
          pragmatic_insights ← opt_get s "pragmatic_insights";
          Ok {| Source.document_id := document_id;
                Source.document_title := document_title;
                Source.page := page;
                Source.excerpt := excerpt;
                Source.confidence_score := confidence_score;
                Source.semantic_layer := semantic_layer;
                Source.matched_concepts := matched_concepts;
                Source.pragmatic_insights := pragmatic_insights |}) entries;
        query_id ← py_getitem result "query_id";
        query ← py_getitem result "query";
        retrieved_at ← py_getitem result "retrieved_at";
        summary ← py_get result "summary" (JObj ∅);
        Ok {| ContextRail.query_id := query_id;
              ContextRail.query := query;
              ContextRail.retrieved_at := retrieved_at;
              ContextRail.sources := sources;
              ContextRail.summary := summary |}).

(** *** The asynchronous entry points

    [loop.run_in_executor(None, func, args...)] has a worker call [func]
    on those arguments once and stores what it returned or raised in a
    future;
    [await] hands that back, re-raising a stored exception. *)
Inductive Future (A : Type) : Type :=
| Resolved (a : A)
| Rejected (e : exn).
Arguments Resolved {A} a.
Arguments Rejected {A} e.

Definition run_in_executor {A : Type} (call : io A) : io (Future A) :=
  fun w =>
    match call w with
    | (Ok a, w') => (Ok (Resolved a), w')
    | (Raise e, w') => (Ok (Rejected e), w')
    end.

Definition await {A : Type} (fut : Future A) : io A :=
  match fut with
  | Resolved a => mret a
  | Rejected e => raise e
  end.

(** [upload_document_async(self, file_path, title=None, tags=None)] *)
Definition upload_document_async (self : SensClient) (file_path : string)
    (title : option string) (tags : option (list string))
  : io Document.t :=
  fut ← run_in_executor (upload_document self file_path title tags);
  await fut.

(** [query_async(self, query, document_ids=None, tags=None, limit=3,
    confidence_threshold=0.5)] *)
Definition query_async (self : SensClient) (query_text : string)
    (document_ids tags : option (list string)) (limit : Z)
    (confidence_threshold : spec_float)
  : io QueryResult.t :=
  fut ← run_in_executor
          (query self query_text document_ids tags limit confidence_threshold);
  await fut.


(** ** The error table of the specification

    Section 4.2 lists, for each status that is not a success, the member of
    the taxonomy to raise. *)
Definition spec_error_kind (status : Z) : SensKind :=
  if status =? 400 then Validation
  else if (status =? 401) || (status =? 403) then Authentication
  else if status =? 404 then NotFound
  else if status =? 409 then Conflict
  else if status =? 413 then PayloadTooLarge
  else if status =? 429 then RateLimit
  else if status =? 503 then ServiceUnavailable
  else Generic.

(** The exception of a given kind; only the two kinds that have a
    [retry_after] attribute keep [ra]. *)
Definition build_error (k : SensKind) (f : SensErrorFields) (ra : option Z)
  : exn :=
  match k with
  | Generic => SensError f
  | Authentication => SensAuthError f
  | RateLimit => SensRateLimitError f ra
  | NotFound => SensNotFoundError f
  | Validation => SensValidationError f
  | Conflict => SensConflictError f
  | PayloadTooLarge => SensPayloadTooLargeError f
  | ServiceUnavailable => SensServiceUnavailableError f ra
  end.

Definition carries_retry_after (status : Z) : bool :=
  (status =? 429) || (status =? 503).

(** The dictionary the handler works on when the body is one, or is
    not JSON at all. *)
Definition body_fields (response : Response) : option (gmap string json) :=
  match response_json response with
  | Some (JObj d) => Some d
  | Some _ => None
  | None => Some ∅
  end.

(** The fields every taxonomy error gets from a body [d]. *)
Definition error_fields (status : Z) (d : gmap string json)
  : SensErrorFields :=
  SensError_init
    (default (JStr ("HTTP " +:+ pretty status)) (d !! "message"))
    (default JNull (d !! "code"))
    (default (JObj ∅) (d !! "details")).

(** What the constructor raises and returns. *)
Definition missing_key_error : exn :=
  SensValidationError
    {| message := JStr "API key required. Provide 'api_key' parameter or set SENS_API_KEY environment variable.";
       code := JStr "SENS_003";
       details := JObj ∅ |}.

Definition client_with_key (k base : string) (t : Z) : SensClient :=
  {| api_key := k;
     base_url := rstrip_slash base;
     timeout := t;
     _client := {| client_headers := get_headers k; client_timeout := t |} |}.

(** The server answers [r] to the next request, whatever it is. *)
Definition next_response (w : World) (r : Response) : Prop :=
  ∀ req, network w (sent w ++ [req]) = Responded r.

(** The source record the client builds from one entry [s] of the
    body's [sources], as [query] does it. *)
Definition query_source_of (s : json) (src : Source.t) : Prop :=
  ∃ d, s = JObj d
    ∧ d !! "document_id" = Some (Source.document_id src)
    ∧ Source.document_title src = default JNull (d !! "document_title")
    ∧ Source.page src = default JNull (d !! "page")
    ∧ Source.confidence_score src = default JNull (d !! "confidence_score").

Definition is_decode_error (e : exn) : Prop :=
  (∃ k, e = KeyError k) ∨ e = TypeError ∨ e = AttributeError.

(** ** Concrete clients, responses and worlds *)

Definition cpython_default_digits : option nat := Some 4300%nat.

Definition client0 : SensClient :=
  {| api_key := "sens_sk_test";
     base_url := "https://api.sens.ai/v1";
     timeout := 30;
     _client := {| client_headers := get_headers "sens_sk_test";
                   client_timeout := 30 |} |}.

Definition always (r : Response) : list Request → NetOutcome :=
  fun _ => Responded r.

Definition world0 (net : list Request → NetOutcome) : World :=
  {| environ := ∅;
     fs := {[ "/tmp/report.pdf" := RegularFile true ]};
     network := net;
     sent := [] |}.

Definition http_date : string := "Wed, 21 Oct 2015 07:28:00 GMT".

Definition resp_429_http_date : Response :=
  {| status_code := 429;
     response_json := Some (JObj {[ "message" := JStr "slow down" ]});
     headers := {[ "Retry-After" := http_date ]} |}.

Definition resp_503_http_date : Response :=
  {| status_code := 503;
     response_json := None;
     headers := {[ "Retry-After" := http_date ]} |}.

Definition resp_503_soon : Response :=
  {| status_code := 503;
     response_json := Some (JObj {[ "message" := JStr "maintenance";
                                    "code" := JStr "SENS_503";
                                    "details" := JObj {[ "eta" := JInt 5 ]} ]});
     headers := {[ "Retry-After" := "soon" ]} |}.

Definition resp_500_list_body : Response :=
  {| status_code := 500; response_json := Some (JArr []); headers := ∅ |}.

Definition resp_429_five : Response :=
  {| status_code := 429;
     response_json := Some (JObj {[ "message" := JStr "slow down";
                                    "code" := JStr "SENS_429" ]});
     headers := {[ "Retry-After" := "5" ]} |}.

Definition resp_404_no_body : Response :=
  {| status_code := 404; response_json := None; headers := ∅ |}.

Definition resp_200_not_json : Response :=
  {| status_code := 200; response_json := None; headers := ∅ |}.

Definition resp_200_empty_object : Response :=
  {| status_code := 200; response_json := Some (JObj ∅); headers := ∅ |}.

Definition resp_202_doc : Response :=
  {| status_code := 202;
     response_json := Some (JObj {[ "id" := JStr "doc_1";
                                    "status" := JStr "processing" ]});
     headers := ∅ |}.

Definition resp_200_answer : Response :=
  {| status_code := 200;
     response_json := Some (JObj
       {[ "query_id" := JStr "q_123";
          "query" := JStr "what";
          "answer" := JStr "that";
          "confidence_score" := JInt 1;
          "processing_time_ms" := JInt 12;
          "sources" := JArr
            [ JObj {[ "document_id" := JStr "doc_b"; "page" := JInt 7 ]};
              JObj {[ "document_id" := JStr "doc_a" ]} ] ]});
     headers := ∅ |}.

(** A request that carries nothing but its method and URL. *)
Definition bare_request (m : Method) (url : string) : Request :=
  {| req_method := m; req_url := url;
     req_files := None; req_data := None; req_json := None |}.

(** Where an exception [e] of an operation that asked for [req] can come
    from: [httpx] refused the request with [e]; the transport failed; or
    the handler raised [e] on the response; or, for an operation that
    builds a typed result ([decodes]), the status was a success and reading
    the body raised [e]. *)
Definition from_round_trip (w : World) (req : Request) (decodes : bool)
    (e : exn) : Prop :=
  network w (sent w ++ [req]) = Refused e
  ∨ (network w (sent w ++ [req]) = TransportFailure ∧ e = TransportError)
  ∨ ∃ r, network w (sent w ++ [req]) = Responded r
       ∧ (handle_response r = Raise e
          ∨ (decodes = true ∧ is_success (status_code r) = true
             ∧ is_decode_error e)).

Definition slow_down_fields : SensErrorFields :=
  {| message := JStr "slow down"; code := JStr "SENS_429";
     details := JObj ∅ |}.

Definition not_found_fields : SensErrorFields :=
  {| message := JStr "HTTP 404"; code := JNull; details := JObj ∅ |}.

Definition world_with_key : World :=
  {| environ := {[ "SENS_API_KEY" := "sens_sk_env" ]};
     fs := ∅;
     network := always resp_404_no_body;
     sent := [] |}.

Definition answer_sources : list Source.t :=
  [ {| Source.document_id := JStr "doc_b";
       Source.document_title := JNull;
       Source.page := JInt 7;
       Source.excerpt := JNull;
       Source.confidence_score := JNull;
       Source.semantic_layer := JNull;
       Source.matched_concepts := JNull;
       Source.pragmatic_insights := JNull |};
    {| Source.document_id := JStr "doc_a";
       Source.document_title := JNull;
       Source.page := JNull;
       Source.excerpt := JNull;
       Source.confidence_score := JNull;
       Source.semantic_layer := JNull;
       Source.matched_concepts := JNull;
       Source.pragmatic_insights := JNull |} ].

Definition answer_result : QueryResult.t :=
  {| QueryResult.query_id := JStr "q_123";
     QueryResult.query := JStr "what";
     QueryResult.answer := JStr "that";
     QueryResult.confidence_score := JInt 1;
     QueryResult.processing_time_ms := JInt 12;
     QueryResult.sources := answer_sources |}.

(** What [int_unsigned] does with the outcome of reading the digits: the
    rest must be white space and the digits within the limit. *)
Definition int_finish (limit : option nat) (r : option (Z * nat * string))
  : option Z :=
  '(v, n, rest) ← r;
  if String.eqb (lstrip_space rest) "" then
    match limit with
    | Some m => if (m <? n)%nat then None else Some v
    | None => Some v
    end
  else None.

(** The decimal form of [n] has no more digits than the limit allows. *)
Definition fits_limit (limit : option nat) (n : Z) : Prop :=
  match limit with
  | Some m => (String.length (pretty (Z.abs n)) ≤ m)%nat
  | None => True
  end.

(** ** Vocabulary of the further properties *)

(** The statuses the handler names: the four successes and the eight of
    the error table. *)
Definition handled_statuses : list Z :=
  [200; 201; 202; 204; 400; 401; 403; 404; 409; 413; 429; 503].

(** A title that is given and not empty; a list that is given and not
    empty: what [if title:] and [if tags:] let through. *)
Definition given_text (o : option string) : option string :=
  match o with
  | Some t => if str_nonempty t then Some t else None
  | None => None
  end.

Definition given_list (o : option (list string)) : option (list string) :=
  match o with
  | Some (x :: l) => Some (x :: l)
  | _ => None
  end.

Fixpoint slashes (n : nat) : string :=
  match n with
  | O => ""
  | S n' => String "/" (slashes n')
  end.

Fixpoint ends_with_slash (s : string) : bool :=
  match s with
  | EmptyString => false
  | String c EmptyString => Ascii.eqb c "/"
  | String _ s' => ends_with_slash s'
  end.

(** The element expressions of the two list comprehensions, by name. *)
Definition query_source (s : json) : result Source.t :=
  document_id ← py_getitem s "document_id";
  document_title ← opt_get s "document_title";
  page ← opt_get s "page";
  confidence_score ← opt_get s "confidence_score";
  Ok {| Source.document_id := document_id;
        Source.document_title := document_title;
        Source.page := page;
        Source.excerpt := JNull;
        Source.confidence_score := confidence_score;
        Source.semantic_layer := JNull;
        Source.matched_concepts := JNull;
        Source.pragmatic_insights := JNull |}.

Definition rail_source (s : json) : result Source.t :=
  document_id ← py_getitem s "document_id";
  document_title ← opt_get s "document_title";
  page ← opt_get s "page";
  excerpt ← opt_get s "excerpt";
  confidence_score ← opt_get s "confidence_score";
  semantic_layer ← opt_get s "semantic_layer";
  matched_concepts ← opt_get s "matched_concepts";
  pragmatic_insights ← opt_get s "pragmatic_insights";
  Ok {| Source.document_id := document_id;
        Source.document_title := document_title;
        Source.page := page;
        Source.excerpt := excerpt;
        Source.confidence_score := confidence_score;
        Source.semantic_layer := semantic_layer;
        Source.matched_concepts := matched_concepts;
        Source.pragmatic_insights := pragmatic_insights |}.

(** The source record [get_context_rail] builds from one entry [s]. *)
Definition rail_source_of (s : json) (src : Source.t) : Prop :=
  ∃ d, s = JObj d
    ∧ d !! "document_id" = Some (Source.document_id src)
    ∧ Source.document_title src = default JNull (d !! "document_title")
    ∧ Source.page src = default JNull (d !! "page")
    ∧ Source.excerpt src = default JNull (d !! "excerpt")
    ∧ Source.confidence_score src = default JNull (d !! "confidence_score")
    ∧ Source.semantic_layer src = default JNull (d !! "semantic_layer")
    ∧ Source.matched_concepts src
      = default JNull (d !! "matched_concepts")
    ∧ Source.pragmatic_insights src
      = default JNull (d !! "pragmatic_insights").

(** A source without the detail only the context rail carries. *)
Definition terse (src : Source.t) : Prop :=
  Source.excerpt src = JNull
  ∧ Source.semantic_layer src = JNull
  ∧ Source.matched_concepts src = JNull
  ∧ Source.pragmatic_insights src = JNull.

(** The documents the two operations build from a body [d] whose
    [id] and [status] are [i] and [s]. *)
Definition uploaded_document (d : gmap string json) (i s : json)
  : Document.t :=
  {| Document.id := i;
     Document.status := s;
     Document.title := default JNull (d !! "title");
     Document.size_bytes := default JNull (d !! "size_bytes");
     Document.tags := default JNull (d !! "tags");
     Document.created_at := default JNull (d !! "created_at");
     Document.estimated_ready_at
       := default JNull (d !! "estimated_ready_at");
     Document.ready_at := JNull;
     Document.page_count := JNull;
     Document.chunk_count := JNull;
     Document.concept_count := JNull |}.

Definition fetched_document (d : gmap string json) (i s : json)
  : Document.t :=
  {| Document.id := i;
     Document.status := s;
     Document.title := default JNull (d !! "title");
     Document.size_bytes := default JNull (d !! "size_bytes");
     Document.tags := default JNull (d !! "tags");
     Document.created_at := default JNull (d !! "created_at");
     Document.estimated_ready_at := JNull;
     Document.ready_at := default JNull (d !! "ready_at");
     Document.page_count := default JNull (d !! "page_count");
     Document.chunk_count := default JNull (d !! "chunk_count");
     Document.concept_count := default JNull (d !! "concept_count") |}.

(** The transport fails on the next request, whatever it is. *)
Definition next_fails (w : World) : Prop :=
  ∀ req, network w (sent w ++ [req]) = TransportFailure.

(** Further responses and worlds. *)
Definition resp_206_no_body : Response :=
  {| status_code := 206; response_json := None; headers := ∅ |}.

Definition resp_denied (status : Z) : Response :=
  {| status_code := status;
     response_json := Some (JObj {[ "message" := JStr "denied" ]});
     headers := ∅ |}.

Definition resp_500_with (hd : gmap string string) : Response :=
  {| status_code := 500; response_json := None; headers := hd |}.

Definition resp_200_list_body : Response :=
  {| status_code := 200; response_json := Some (JArr []); headers := ∅ |}.

Definition resp_200_ready_doc : Response :=
  {| status_code := 200;
     response_json := Some (JObj {[ "id" := JStr "doc_1";
                                    "status" := JStr "ready";
                                    "page_count" := JInt 3;
                                    "estimated_ready_at" := JStr "soon" ]});
     headers := ∅ |}.

Definition resp_200_source_without_id : Response :=
  {| status_code := 200;
     response_json := Some (JObj
       {[ "query_id" := JStr "q_123";
          "query" := JStr "what";
          "answer" := JStr "that";
          "confidence_score" := JInt 1;
          "processing_time_ms" := JInt 12;
          "sources" := JArr
            [ JObj {[ "document_id" := JStr "doc_b" ]};
              JObj {[ "page" := JInt 2 ]} ] ]});
     headers := ∅ |}.

Definition resp_200_rail : Response :=
  {| status_code := 200;
     response_json := Some (JObj
       {[ "query_id" := JStr "q_123";
          "query" := JStr "what";
          "retrieved_at" := JStr "now";
          "sources" := JArr
            [ JObj {[ "document_id" := JStr "doc_b";
                      "excerpt" := JStr "text" ]} ] ]});
     headers := ∅ |}.

Definition world_with_directory : World :=
  {| environ := ∅;
     fs := {[ "/tmp" := Directory ]};
     network := always resp_202_doc;
     sent := [] |}.

Definition world_offline : World :=
  {| environ := ∅;
     fs := {[ "/tmp/report.pdf" := RegularFile true ]};
     network := fun _ => TransportFailure;
     sent := [] |}.

Definition rail_result : ContextRail.t :=
  {| ContextRail.query_id := JStr "q_123";
     ContextRail.query := JStr "what";
     ContextRail.retrieved_at := JStr "now";
     ContextRail.sources :=
       [ {| Source.document_id := JStr "doc_b";
            Source.document_title := JNull;
            Source.page := JNull;
            Source.excerpt := JStr "text";
            Source.confidence_score := JNull;
            Source.semantic_layer := JNull;
            Source.matched_concepts := JNull;
            Source.pragmatic_insights := JNull |} ];
     ContextRail.summary := JObj ∅ |}.

Definition query_request_what : Request :=
  {| req_method := POST;
     req_url := "https://api.sens.ai/v1/query";
     req_files := None;
     req_data := None;
     req_json := Some (JObj {[ "query" := JStr "what";
                               "limit" := JInt 3;
                               "confidence_threshold"
                                 := JFloat (S754_zero false) ]}) |}.

(** [httpx] is asked for [req] once, with outcome [out]: when it
    refuses, its exception is the outcome and the world is as before; when
    it does not, [req] is the one request added to the log. *)
Definition asked_once {A : Type} (w : World) (req : Request)
    (out : result A * World) : Prop :=
  match network w (sent w ++ [req]) with
  | Refused e => out = (Raise e, w)
  | _ => sent out.2 = sent w ++ [req]
  end.


(** An [httpx] that refuses a URL with an ASCII control character in it,
    as version 0.28 does, in front of a server that answers [r]. *)
Definition is_control (c : ascii) : bool :=
  let n := nat_of_ascii c in ((n <? 32) || (n =? 127))%nat.

Fixpoint has_control (s : string) : bool :=
  match s with
  | EmptyString => false
  | String c s' => is_control c || has_control s'
  end.

Definition guarded (r : Response) : list Request → NetOutcome :=
  fun log =>
    match last log with
    | Some req =>
        if has_control (req_url req) then Refused InvalidURL
        else Responded r
    | None => Responded r
    end.

Definition newline_id : string := String "010"%char "".

(** * Properties *)

(** ** The response handler *)

Lemma result_bind_ok {A B : Type} (f : A → result B) (a : A) :
  (Ok a ≫= f) = f a.
Proof. reflexivity. Qed.

Lemma io_bind_unfold {A B : Type} (m : io A) (f : A → io B) (w : World) :
  (m ≫= f) w = match m w with
               | (Ok a, w') => f a w'
               | (Raise e, w') => (Raise e, w')
               end.
Proof. reflexivity. Qed.

Lemma is_success_iff status :
  is_success status = true ↔
  status = 200 ∨ status = 201 ∨ status = 202 ∨ status = 204.
Proof. unfold is_success. rewrite !orb_true_iff, !Z.eqb_eq. tauto. Qed.

(** The handler in one equation: success returns the decoded body (an
    empty dictionary when it is not JSON); otherwise a body that is not a
    dictionary has no [get], and a dictionary gives the error of the table,
    unless a 429 or 503 has a [Retry-After] that [int] refuses. *)
Lemma handle_response_eq (r : Response) :
  handle_response r =
    if is_success (status_code r) then
      Ok (default (JObj ∅) (response_json r))
    else
      match body_fields r with
      | None => Raise AttributeError
      | Some d =>
          let f := error_fields (status_code r) d in
          if carries_retry_after (status_code r) then
            match parse_retry_after (headers r !! "Retry-After") with
            | Ok ra => Raise (build_error (spec_error_kind (status_code r)) f ra)
            | Raise e => Raise e
            end
          else Raise (build_error (spec_error_kind (status_code r)) f None)
      end.
Proof.
  unfold handle_response, body_fields, carries_retry_after, spec_error_kind,
    error_fields.
  destruct r as [st body hd]; simpl.
  destruct (is_success st); [by destruct body|].
  destruct body as [[]|]; simpl; try reflexivity;
    repeat match goal with
           | |- context [st =? ?n] =>
               destruct (Z.eqb_spec st n) as [->|?]; simpl
           end;
    try reflexivity;
    by destruct (parse_retry_after (hd !! "Retry-After")).
Qed.

Lemma handle_response_success (r : Response) :
  is_success (status_code r) = true →
  handle_response r = Ok (default (JObj ∅) (response_json r)).
Proof. intros H. by rewrite handle_response_eq, H. Qed.

Lemma parse_retry_after_absent : parse_retry_after None = Ok None.
Proof. reflexivity. Qed.

Lemma parse_retry_after_empty : parse_retry_after (Some "") = Ok None.
Proof. reflexivity. Qed.

Lemma parse_retry_after_int (s : string) (n : Z) :
  s ≠ "" → py_int int_max_str_digits s = Some n →
  parse_retry_after (Some s) = Ok (Some n).
Proof.
  intros Hs Hn. unfold parse_retry_after, str_nonempty.
  destruct (String.eqb_spec s ""); [done|]. by rewrite Hn.
Qed.

Lemma parse_retry_after_refused (s : string) :
  s ≠ "" → py_int int_max_str_digits s = None →
  parse_retry_after (Some s) = Raise ValueError.
Proof.
  intros Hs Hn. unfold parse_retry_after, str_nonempty.
  destruct (String.eqb_spec s ""); [done|]. by rewrite Hn.
Qed.

Lemma parse_retry_after_raises (h : option string) (e : exn) :
  parse_retry_after h = Raise e → e = ValueError.
Proof.
  unfold parse_retry_after. intros H.
  destruct h as [s|]; [|done].
  destruct (str_nonempty s); [|done].
  destruct (py_int int_max_str_digits s); by simplify_eq.
Qed.

(** *** [int] reads back what [str] prints *)

Lemma digit_of_pretty_N_char (x : N) :
  (x < 10)%N → digit_of (pretty_N_char x) = Some (Z.of_N x).
Proof.
  intros Hx. rewrite <- (N2Nat.id x).
  assert (H : (N.to_nat x < 10)%nat) by lia.
  revert H. generalize (N.to_nat x). clear.
  intros n. do 10 (destruct n as [|n]; [reflexivity|]). lia.
Qed.

Lemma int_unsigned_digit (limit : option nat) (c : ascii) (d : Z)
    (t : string) :
  digit_of c = Some d →
  int_unsigned limit (String c t) = int_finish limit (int_digits d 1 t).
Proof. intros Hd. unfold int_unsigned. by rewrite Hd. Qed.

Lemma py_int_minus (limit : option nat) (s : string) :
  py_int limit (String "-" s) = Z.opp <$> int_unsigned limit s.
Proof. reflexivity. Qed.

Lemma py_int_digit (limit : option nat) (c : ascii) (d : Z) (t : string) :
  digit_of c = Some d →
  py_int limit (String c t) = int_unsigned limit (String c t).
Proof.
  intros Hd.
  assert (Hsp : is_space c = false).
  { destruct c as [[] [] [] [] [] [] [] []]; by vm_compute in Hd |- *. }
  unfold py_int. simpl lstrip_space. rewrite Hsp.
  destruct c as [[] [] [] [] [] [] [] []]; try done.
Qed.

Lemma pretty_N_go_read (x : N) (s : string) :
  (0 < x)%N →
  ∃ (k : nat) (c : ascii) (t : string) (d : Z),
    String.length (pretty_N_go x s) = (k + String.length s)%nat
    ∧ pretty_N_go x s = String c t
    ∧ digit_of c = Some d
    ∧ int_digits d 1 t = int_digits (Z.of_N x) k s.
Proof.
  revert s. induction (N.lt_wf_0 x) as [x _ IH]. intros s Hx.
  rewrite pretty_N_go_step by done.
  pose proof (digit_of_pretty_N_char (x `mod` 10)%N) as Hc.
  specialize (Hc ltac:(by apply N.mod_lt)).
  assert (Hdm : Z.of_N x
                = Z.of_N (x `div` 10) * 10 + Z.of_N (x `mod` 10)).
  { pose proof (N.div_mod x 10 ltac:(done)) as H.
    generalize dependent (x `div` 10)%N.
    generalize dependent (x `mod` 10)%N. intros; lia. }
  destruct (decide (x `div` 10 = 0)%N) as [E|E].
  - rewrite E, pretty_N_go_0. rewrite E in Hdm.
    exists 1%nat, (pretty_N_char (x `mod` 10)), s, (Z.of_N (x `mod` 10)).
    repeat split; [done|]. f_equal. lia.
  - destruct (IH (x `div` 10)%N ltac:(by apply N.div_lt)
                (String (pretty_N_char (x `mod` 10)) s)
                ltac:(by apply N.neq_0_lt_0))
      as (k & c & t & d & Hlen & Hstr & Hd & Hread).
    exists (S k), c, t, d. rewrite Hlen, Hstr, Hread. simpl.
    rewrite Hc. repeat split; [lia|done|]. f_equal. lia.
Qed.

Lemma int_digits_end (v : Z) (k : nat) : int_digits v k "" = Some (v, k, "").
Proof. reflexivity. Qed.

Lemma py_int_pretty_pos (limit : option nat) (p : positive) :
  fits_limit limit (Z.pos p) →
  py_int limit (pretty (N.pos p)) = Some (Z.pos p)
  ∧ pretty (N.pos p) ≠ "".
Proof.
  intros Hfit. unfold pretty, pretty_N. case_decide; [done|].
  destruct (pretty_N_go_read (N.pos p) "" ltac:(done))
    as (k & c & t & d & Hlen & Hstr & Hd & Hread).
  split; [|by rewrite Hstr].
  rewrite Hstr, (py_int_digit _ _ _ _ Hd), (int_unsigned_digit _ _ _ _ Hd).
  rewrite Hread, int_digits_end.
  unfold int_finish. simpl.
  destruct limit as [m|]; [|done].
  change (String.length (pretty_N_go (N.pos p) "") ≤ m)%nat in Hfit.
  rewrite Hlen in Hfit. simpl in Hfit.
  destruct (Nat.ltb_spec m k); [lia|done].
Qed.

(** [int(str(n)) == n]: the decimal form of any integer converts back to
    it, provided it has no more digits than the limit. *)
Lemma py_int_pretty (limit : option nat) (n : Z) :
  fits_limit limit n → py_int limit (pretty n) = Some n ∧ pretty n ≠ "".
Proof.
  destruct n as [|p|p]; intros Hfit.
  - split; [|done]. unfold fits_limit in Hfit. vm_compute in Hfit.
    destruct limit as [m|]; [|done]. vm_compute.
    destruct m; [lia|done].
  - apply (py_int_pretty_pos limit p Hfit).
  - destruct (py_int_pretty_pos limit p Hfit) as [Hp Hne].
    split; [|done]. unfold pretty, pretty_Z, pretty, pretty_positive.
    destruct (pretty (N.pos p)) as [|c t] eqn:E; [done|].
    assert (Hd : ∃ d, digit_of c = Some d).
    { unfold pretty, pretty_N in E. case_decide; [done|].
      destruct (pretty_N_go_read (N.pos p) "" ltac:(done))
        as (k & c' & t' & d & _ & Hstr & Hd & _).
      rewrite Hstr in E. injection E as -> ->. by exists d. }
    destruct Hd as [d Hd].
    rewrite (py_int_digit _ _ _ _ Hd) in Hp.
    change ("-" +:+ String c t) with (String "-" (String c t)).
    by rewrite py_int_minus, Hp.
Qed.

(** The handler on a response that is not a success, with a body the
    handler can read and a [Retry-After] it can convert. *)
Lemma handle_response_raises_table_member (r : Response)
    (d : gmap string json) (ra : option Z) :
  is_success (status_code r) = false →
  body_fields r = Some d →
  parse_retry_after (headers r !! "Retry-After") = Ok ra →
  ∃ e, handle_response r = Raise e
    ∧ sens_kind e = Some (spec_error_kind (status_code r))
    ∧ sens_fields e = Some (error_fields (status_code r) d)
    ∧ (carries_retry_after (status_code r) = true → sens_retry_after e = Some ra).
Proof.
  intros Hs Hd Hra. rewrite handle_response_eq, Hs, Hd. cbv zeta.
  destruct r as [st body hd]; simpl in *.
  unfold carries_retry_after, spec_error_kind.
  repeat match goal with
         | |- context [st =? ?n] =>
             destruct (Z.eqb_spec st n) as [->|?]; simpl
         end;
    try rewrite Hra; eexists; (split; [reflexivity|]); done.
Qed.

(** The table of section 4.2 holds on every response whose status is not a
    success, whose body is a JSON object or no JSON at all, and whose
    [Retry-After] header, on a 429 or 503, is absent, empty or accepted by
    [int]: the handler raises the member the table names, built from the
    body's fields. *)
Theorem handle_response_error_table (r : Response)
    (d : gmap string json) (ra : option Z) :
  is_success (status_code r) = false →
  body_fields r = Some d →
  parse_retry_after (headers r !! "Retry-After") = Ok ra →
  ∃ e, handle_response r = Raise e
    ∧ sens_kind e = Some (spec_error_kind (status_code r))
    ∧ sens_fields e = Some (error_fields (status_code r) d)
    ∧ (carries_retry_after (status_code r) = true → sens_retry_after e = Some ra).
Proof. apply handle_response_raises_table_member. Qed.

(** What does hold of [retry_after]: on a 429 or 503 whose body is an
    object or no JSON, an absent or empty [Retry-After] gives an error whose
    [retry_after] is [None], and a header that is the decimal form of an
    integer [n] gives one whose [retry_after] is [n]. *)
Theorem retry_after_of_decimal_header (r : Response)
    (d : gmap string json) :
  carries_retry_after (status_code r) = true →
  body_fields r = Some d →
  (headers r !! "Retry-After" = None ∨ headers r !! "Retry-After" = Some "" →
     ∃ e, handle_response r = Raise e
        ∧ sens_kind e = Some (spec_error_kind (status_code r))
        ∧ sens_retry_after e = Some None)
  ∧ (∀ n : Z, headers r !! "Retry-After" = Some (pretty n) →
       fits_limit int_max_str_digits n →
       ∃ e, handle_response r = Raise e
          ∧ sens_kind e = Some (spec_error_kind (status_code r))
          ∧ sens_retry_after e = Some (Some n)).
Proof.
  intros Hc Hd.
  assert (Hs : is_success (status_code r) = false).
  { unfold carries_retry_after in Hc. unfold is_success.
    apply orb_true_iff in Hc as [H|H]; apply Z.eqb_eq in H; by rewrite H. }
  split.
  - intros Hh.
    assert (Hp : parse_retry_after (headers r !! "Retry-After") = Ok None)
      by (destruct Hh as [-> | ->]; reflexivity).
    destruct (handle_response_raises_table_member r d None Hs Hd Hp)
      as (e & He & Hk & _ & Hra).
    exists e. auto.
  - intros n Hh Hfit. destruct (py_int_pretty _ n Hfit) as [Hn Hne].
    assert (Hp : parse_retry_after (headers r !! "Retry-After")
                 = Ok (Some n))
      by (rewrite Hh; by apply parse_retry_after_int).
    destruct (handle_response_raises_table_member r d (Some n) Hs Hd Hp)
      as (e & He & Hk & _ & Hra).
    exists e. auto.
Qed.

(** Every taxonomy error the handler raises carries the body's
    [message], or ["HTTP <status>"] when the body has none; the body's
    [code], or [None]; and the body's [details], or an empty dictionary
    when the body has none (or a false one, by [details or {}]). *)
Theorem handle_response_error_carries_body_fields (r : Response) (e : exn)
    (f : SensErrorFields) :
  handle_response r = Raise e →
  sens_fields e = Some f →
  ∃ d, body_fields r = Some d
    ∧ message f
      = default (JStr ("HTTP " +:+ pretty (status_code r))) (d !! "message")
    ∧ code f = default JNull (d !! "code")
    ∧ details f = py_or (default (JObj ∅) (d !! "details")) (JObj ∅)
    ∧ (∀ m, d !! "details" = Some (JObj m) → details f = JObj m)
    ∧ (d !! "details" = None → details f = JObj ∅).
Proof.
  intros Hr Hf. rewrite handle_response_eq in Hr.
  destruct (is_success (status_code r)); [done|].
  destruct (body_fields r) as [d|] eqn:Hd; [|by simplify_eq/=].
  exists d. split; [done|].
  assert (f = error_fields (status_code r) d) as ->.
  { cbv zeta in Hr.
    destruct (carries_retry_after (status_code r)).
    - destruct (parse_retry_after _) as [ra|e'] eqn:Hp.
      + destruct (spec_error_kind (status_code r)); by simplify_eq/=.
      + apply parse_retry_after_raises in Hp. by simplify_eq/=.
    - destruct (spec_error_kind (status_code r)); by simplify_eq/=. }
  unfold error_fields, SensError_init. simpl.
  repeat split; try done.
  - intros m ->. simpl. unfold py_or. simpl.
    destruct (Nat.eqb_spec (size m) 0) as [E|E]; [|done].
    apply map_size_empty_iff in E. by subst.
  - by intros ->.
Qed.

(** C6. Not every error the handler raises carries the three fields: on
    a 503 whose body has a [message], a [code] and [details] and whose
    [Retry-After] is not a number, what leaves the handler is
    [ValueError], which is none of the taxonomy and has none of them. *)
Theorem handler_raises_an_error_without_fields :
  handle_response resp_503_soon = Raise ValueError
  ∧ (∀ e, handle_response resp_503_soon = Raise e → sens_fields e = None)
  ∧ ∃ d, body_fields resp_503_soon = Some d
       ∧ d !! "message" = Some (JStr "maintenance")
       ∧ d !! "code" = Some (JStr "SENS_503")
       ∧ d !! "details" = Some (JObj {[ "eta" := JInt 5 ]}).
Proof.
  assert (H : handle_response resp_503_soon = Raise ValueError)
    by (vm_compute; reflexivity).
  split; [exact H|]. split.
  - intros e He. rewrite H in He. by simplify_eq.
  - eexists. split; [reflexivity|]. by repeat split.
Qed.

(** C1. A 429 whose [Retry-After] is an HTTP date leaves the handler as
    [ValueError], which is no member of the taxonomy, where the table asks
    for the rate-limit error; an error status whose body is a JSON list
    leaves it as [AttributeError]. *)
Theorem handle_response_escapes_taxonomy :
  handle_response resp_429_http_date = Raise ValueError
  ∧ spec_error_kind (status_code resp_429_http_date) = RateLimit
  ∧ ¬ (∃ e, handle_response resp_429_http_date = Raise e
          ∧ sens_kind e = Some RateLimit)
  ∧ handle_response resp_500_list_body = Raise AttributeError.
Proof.
  assert (H : handle_response resp_429_http_date = Raise ValueError)
    by (vm_compute; reflexivity).
  repeat split; try done.
  intros (e & He & Hk). rewrite H in He. by simplify_eq.
Qed.

(** C2. On a 503 (and on a 429) whose [Retry-After] is an HTTP date,
    converting the header raises [ValueError]: no service-unavailable
    error with an absent [retry_after] is raised. *)
Theorem retry_after_http_date_raises_value_error :
  parse_retry_after (headers resp_503_http_date !! "Retry-After")
    = Raise ValueError
  ∧ handle_response resp_503_http_date = Raise ValueError
  ∧ ¬ (∃ e, handle_response resp_503_http_date = Raise e
          ∧ sens_retry_after e = Some None).
Proof.
  assert (H : handle_response resp_503_http_date = Raise ValueError)
    by (vm_compute; reflexivity).
  repeat split; try done.
  intros (e & He & Hk). rewrite H in He. by simplify_eq.
Qed.

(** ** The operations *)

Lemma send_eq (req : Request) (w : World) :
  send req w =
    match network w (sent w ++ [req]) with
    | Responded r => (Ok r, log_request req w)
    | TransportFailure => (Raise TransportError, log_request req w)
    | Refused e => (Raise e, w)
    end.
Proof. reflexivity. Qed.

Lemma send_next (req : Request) (w : World) (r : Response) :
  next_response w r → send req w = (Ok r, log_request req w).
Proof. intros H. by rewrite send_eq, (H req). Qed.

Lemma path_exists_eq (path : string) (w : World) :
  path_exists path w = (Ok (bool_decide (is_Some (fs w !! path))), w).
Proof. reflexivity. Qed.

(** C3 (as amended). A success status with a body that is not JSON is
    handled as the same response with the body [{}]: the handler returns the
    empty dictionary. [delete_document] then returns; the other four
    operations subscript a required field of it and raise [KeyError]. *)
Theorem success_without_json_is_empty_mapping (self : SensClient)
    (w : World) (r : Response) :
  next_response w r →
  is_success (status_code r) = true →
  response_json r = None →
  handle_response r
    = handle_response {| status_code := status_code r;
                         response_json := Some (JObj ∅);
                         headers := headers r |}
  ∧ handle_response r = Ok (JObj ∅)
  ∧ (∀ id, (delete_document self id w).1 = Ok tt)
  ∧ (∀ id, (get_document self id w).1 = Raise (KeyError "id"))
  ∧ (∀ q ids tags limit threshold,
       (query self q ids tags limit threshold w).1
       = Raise (KeyError "query_id"))
  ∧ (∀ qid, (get_context_rail self qid w).1 = Raise (KeyError "query_id"))
  ∧ (∀ path title tags,
       fs w !! path = Some (RegularFile true) →
       (upload_document self path title tags w).1 = Raise (KeyError "id")).
Proof.
  intros Hnext Hs Hbody.
  assert (Hh : handle_response r = Ok (JObj ∅))
    by (by rewrite handle_response_success, Hbody).
  split.
  { rewrite Hh, handle_response_success by done. done. }
  split; [done|].
  repeat split.
  - intros id. unfold delete_document.
    by rewrite io_bind_unfold, (send_next _ _ _ Hnext); unfold lift; rewrite Hh.
  - intros id. unfold get_document.
    by rewrite io_bind_unfold, (send_next _ _ _ Hnext); unfold lift; rewrite Hh.
  - intros q ids tags limit threshold. unfold query.
    by rewrite io_bind_unfold, (send_next _ _ _ Hnext); unfold lift; rewrite Hh.
  - intros qid. unfold get_context_rail.
    by rewrite io_bind_unfold, (send_next _ _ _ Hnext); unfold lift; rewrite Hh.
  - intros path title tags Hfile. unfold upload_document.
    rewrite io_bind_unfold, path_exists_eq, Hfile. simpl.
    rewrite io_bind_unfold. unfold open_rb at 1. rewrite Hfile.
    by rewrite io_bind_unfold, (send_next _ _ _ Hnext); unfold lift; rewrite Hh.
Qed.

Lemma round_trip_eq {A : Type} (req : Request) (k : Response → result A)
    (w : World) :
  (response ← send req; lift (k response)) w =
    match network w (sent w ++ [req]) with
    | Responded r => (k r, log_request req w)
    | TransportFailure => (Raise TransportError, log_request req w)
    | Refused e => (Raise e, w)
    end.
Proof.
  rewrite io_bind_unfold, send_eq.
  by destruct (network w (sent w ++ [req])).
Qed.

(** C4. When [file_path] does not exist, [upload_document] raises the
    validation error "File not found: <path>" (code SENS_003) and leaves
    the world as it found it: no request has been sent. *)
Theorem upload_missing_file_sends_nothing (self : SensClient)
    (file_path : string) (title : option string)
    (tags : option (list string)) (w : World) :
  fs w !! file_path = None →
  upload_document self file_path title tags w
    = (Raise (SensValidationError
                {| message := JStr ("File not found: " +:+ file_path);
                   code := JStr "SENS_003";
                   details := JObj ∅ |}), w)
  ∧ sent (upload_document self file_path title tags w).2 = sent w.
Proof.
  intros Hfs.
  assert (H : upload_document self file_path title tags w
    = (Raise (SensValidationError
                {| message := JStr ("File not found: " +:+ file_path);
                   code := JStr "SENS_003";
                   details := JObj ∅ |}), w)).
  { unfold upload_document. by rewrite io_bind_unfold, path_exists_eq, Hfs. }
  by rewrite H.
Qed.

Lemma is_ascii_bearer (k : string) : is_ascii ("Bearer " +:+ k) = is_ascii k.
Proof. reflexivity. Qed.

Lemma httpx_Client_get_headers (k : string) (t : Z) :
  httpx_Client (get_headers k) t
  = if is_ascii k then
      Ok {| client_headers := get_headers k; client_timeout := t |}
    else Raise UnicodeEncodeError.
Proof.
  unfold httpx_Client.
  assert (H : map_Forall (λ k0 v, is_ascii k0 && is_ascii v = true)
                (get_headers k) ↔ is_ascii k = true).
  { unfold get_headers.
    rewrite map_Forall_insert by (by vm_compute).
    rewrite map_Forall_insert by (by vm_compute).
    rewrite map_Forall_singleton, is_ascii_bearer. simpl. tauto. }
  destruct (is_ascii k).
  - by rewrite bool_decide_eq_true_2 by (by apply H).
  - rewrite bool_decide_eq_false_2; [done|]. intros Hf. by apply H in Hf.
Qed.


Lemma round_trip_asked_once {A : Type} (req : Request)
    (k : Response → result A) (w : World) :
  asked_once w req ((response ← send req; lift (k response)) w).
Proof.
  unfold asked_once. rewrite round_trip_eq.
  by destruct (network w (sent w ++ [req])).
Qed.


(** C8. The asynchronous entry points give the outcome of the
    synchronous operation on the same arguments, and leave the same world:
    the same value returned or the same exception raised. *)
Theorem async_variants_agree_with_sync (self : SensClient) (w : World) :
  (∀ file_path title tags,
     upload_document_async self file_path title tags w
     = upload_document self file_path title tags w)
  ∧ (∀ q document_ids tags limit confidence_threshold,
       query_async self q document_ids tags limit confidence_threshold w
       = query self q document_ids tags limit confidence_threshold w).
Proof.
  assert (H : ∀ (A : Type) (call : io A),
             (fut ← run_in_executor call; await fut) w = call w).
  { intros A call. rewrite io_bind_unfold. unfold run_in_executor.
    by destruct (call w) as [[a|e] w']. }
  split; intros; apply H.
Qed.

Lemma handle_response_ok_inv (r : Response) (v : json) :
  handle_response r = Ok v →
  is_success (status_code r) = true
  ∧ v = default (JObj ∅) (response_json r).
Proof.
  rewrite handle_response_eq.
  destruct (is_success (status_code r)); [by intros [= <-]|].
  destruct (body_fields r); [|done]. cbv zeta.
  destruct (carries_retry_after (status_code r)); [|done].
  by destruct (parse_retry_after _).
Qed.

Lemma comprehension_Forall2 {A B : Type} (f : A → result B) (l : list A)
    (ys : list B) :
  comprehension f l = Ok ys → Forall2 (λ x y, f x = Ok y) l ys.
Proof.
  revert ys. induction l as [|x l IH]; intros ys; simpl.
  - intros [= <-]. constructor.
  - destruct (f x) as [y|e] eqn:Hx; [|done]. simpl.
    destruct (comprehension f l) as [ys'|e] eqn:Hl; [|done]. simpl.
    intros [= <-]. constructor; [done|by apply IH].
Qed.

Lemma comprehension_raise {A B : Type} (f : A → result B) (l : list A)
    (e : exn) :
  comprehension f l = Raise e → ∃ x, x ∈ l ∧ f x = Raise e.
Proof.
  induction l as [|x l IH]; simpl; [done|].
  destruct (f x) as [y|e'] eqn:Hx; simpl.
  - destruct (comprehension f l) as [ys'|e'] eqn:Hl; [done|]. simpl.
    intros [= ->]. destruct IH as (x' & Hin & Hx'); [done|].
    exists x'. split; [by right|done].
  - intros [= ->]. exists x. split; [by left|done].
Qed.

Lemma py_getitem_raise (v : json) (k : string) (e : exn) :
  py_getitem v k = Raise e → is_decode_error e.
Proof.
  unfold is_decode_error.
  destruct v; simpl; try (intros [= <-]; by auto).
  destruct (fields !! k); [done|]. intros [= <-]. left. by eexists.
Qed.

Lemma py_get_raise (v : json) (k : string) (dflt : json) (e : exn) :
  py_get v k dflt = Raise e → is_decode_error e.
Proof.
  unfold is_decode_error, opt_get. destruct v; simpl; try done;
    intros [= <-]; by auto.
Qed.

Lemma py_iter_raise (v : json) (e : exn) :
  py_iter v = Raise e → is_decode_error e.
Proof.
  unfold is_decode_error. destruct v; simpl; try done;
    intros [= <-]; by auto.
Qed.

(** C9. When [query] returns a result, the server's body was an object,
    and the result's [sources] are built from what iterating the body's
    [sources] yields, entry by entry in that order: from a list, one
    [Source] per element, the i-th from the i-th; an empty list when the
    body has no [sources]. *)
Theorem query_sources_follow_the_body (self : SensClient) (q : string)
    (ids tags : option (list string)) (limit : Z) (threshold : spec_float)
    (w w' : World) (qr : QueryResult.t) :
  query self q ids tags limit threshold w = (Ok qr, w') →
  ∃ r d, network w (sent w') = Responded r
    ∧ is_success (status_code r) = true
    ∧ response_json r = Some (JObj d)
    ∧ (∀ entries, d !! "sources" = Some (JArr entries) →
         Forall2 query_source_of entries (QueryResult.sources qr)
         ∧ length (QueryResult.sources qr) = length entries
         ∧ ∀ i s, entries !! i = Some s →
             ∃ src, QueryResult.sources qr !! i = Some src
                  ∧ query_source_of s src)
    ∧ (d !! "sources" = None → QueryResult.sources qr = []).
Proof.
  intros H. unfold query in H. cbv zeta in H. rewrite round_trip_eq in H.
  destruct (network w (sent w ++ _)) as [r| |e0] eqn:Hn; [|done|done].
  injection H as H <-. simpl.
  exists r.
  destruct (handle_response r) as [result|] eqn:Hh; [|done].
  apply handle_response_ok_inv in Hh as [Hs ->].
  rewrite result_bind_ok in H.
  destruct (response_json r) as [[| | | | | |d]|]; try done.
  exists d. do 3 (split; [done|]). simpl in H. split.
  - intros entries Hsrc. rewrite Hsrc in H. simpl in H.
    destruct (comprehension _ entries) as [ys|] eqn:Hc; [|done].
    simpl in H.
    repeat match type of H with
           | context [d !! ?k] => destruct (d !! k); [simpl in H|done]
           end.
    injection H as <-. simpl.
    apply comprehension_Forall2 in Hc.
    assert (HF : Forall2 query_source_of entries ys).
    { eapply Forall2_impl; [exact Hc|]. intros s src Hsrc'. simpl in Hsrc'.
      destruct s; try done. simpl in Hsrc'.
      destruct (fields !! "document_id") as [v|] eqn:Hid; [|done].
      simpl in Hsrc'. injection Hsrc' as <-.
      exists fields. by repeat split. }
    split; [done|]. split; [symmetry; by eapply Forall2_length|].
    intros i s Hi. eapply Forall2_lookup_l in HF as (src & ? & ?); [|done].
    by exists src.
  - intros Hsrc. rewrite Hsrc in H. simpl in H.
    repeat match type of H with
           | context [d !! ?k] => destruct (d !! k); [simpl in H|done]
           end.
    by injection H as <-.
Qed.

Lemma result_bind_raise {A B : Type} (f : A → result B) (e : exn) :
  (Raise e ≫= f) = Raise e.
Proof. reflexivity. Qed.

(** One step through a chain of binds that ends in an exception: either
    the first computation raised it, or it returned and the rest did. *)
Ltac decode_step H :=
  match type of H with
  | (?m ≫= _) = Raise _ =>
      let E := fresh "E" in
      destruct m eqn:E;
      [ rewrite result_bind_ok in H
      | rewrite result_bind_raise in H; injection H as <- ]
  end.

Ltac decode_error :=
  first [ eapply py_getitem_raise; eassumption
        | eapply py_get_raise; eassumption
        | eapply py_iter_raise; eassumption ].

(** C10 (as amended). [get_document], [delete_document] and
    [get_context_rail] check nothing about their id: for every string they
    ask [httpx] for one request, whose URL ends in that id; [httpx]
    refuses it, and nothing is sent, or sends exactly that one. An
    exception they raise comes from that call alone: the refusal of
    [httpx], a transport failure, the handler's exception for the
    response or, on a success status, a [KeyError], [TypeError] or
    [AttributeError] from reading the body. *)
Theorem id_operations_have_no_local_check (self : SensClient)
    (id : string) (w : World) :
  (let req := bare_request GET (base_url self +:+ "/documents/" +:+ id) in
   asked_once w req (get_document self id w)
   ∧ ∀ e, (get_document self id w).1 = Raise e → from_round_trip w req true e)
  ∧ (let req := bare_request DELETE
                  (base_url self +:+ "/documents/" +:+ id) in
     asked_once w req (delete_document self id w)
     ∧ ∀ e, (delete_document self id w).1 = Raise e →
         from_round_trip w req false e)
  ∧ (let req := bare_request GET
                  (base_url self +:+ "/context-rail/" +:+ id) in
     asked_once w req (get_context_rail self id w)
     ∧ ∀ e, (get_context_rail self id w).1 = Raise e →
         from_round_trip w req true e).
Proof.
  unfold from_round_trip.
  split; [|split]; cbv zeta; (split; [apply round_trip_asked_once|]).
  - unfold get_document, bare_request. rewrite round_trip_eq.
    intros e He.
    destruct (network w _) as [r| |e0]; simpl in He;
      [|right; left; by simplify_eq|left; by simplify_eq].
    right. right. exists r. split; [done|].
    destruct (handle_response r) as [result|e'] eqn:Hh;
      [|left; by simplify_eq/=].
    apply handle_response_ok_inv in Hh as [Hs _]. right.
    do 2 (split; [done|]). rewrite result_bind_ok in He.
    repeat (decode_step He; [|decode_error]). done.
  - unfold delete_document, bare_request. rewrite round_trip_eq.
    intros e He.
    destruct (network w _) as [r| |e0]; simpl in He;
      [|right; left; by simplify_eq|left; by simplify_eq].
    right. right. exists r. split; [done|].
    destruct (handle_response r) as [result|e'] eqn:Hh;
      [done|left; by simplify_eq/=].
  - unfold get_context_rail, bare_request. rewrite round_trip_eq.
    intros e He.
    destruct (network w _) as [r| |e0]; simpl in He;
      [|right; left; by simplify_eq|left; by simplify_eq].
    right. right. exists r. split; [done|].
    destruct (handle_response r) as [result|e'] eqn:Hh;
      [|left; by simplify_eq/=].
    apply handle_response_ok_inv in Hh as [Hs _]. right.
    do 2 (split; [done|]). rewrite result_bind_ok in He.
    do 2 (decode_step He; [|decode_error]).
    decode_step He.
    + repeat (decode_step He; [|decode_error]). done.
    + apply comprehension_raise in E1 as (s & _ & Hs').
      repeat (decode_step Hs'; [|decode_error]). done.
Qed.

(** ** Further properties of the handler *)

Lemma handle_response_raise_inv (r : Response) (e : exn) :
  handle_response r = Raise e →
  is_success (status_code r) = false
  ∧ ((body_fields r = None ∧ e = AttributeError)
     ∨ ∃ d, body_fields r = Some d
          ∧ ((carries_retry_after (status_code r) = true ∧ e = ValueError)
             ∨ ∃ ra, e = build_error (spec_error_kind (status_code r))
                           (error_fields (status_code r) d) ra)).
Proof.
  rewrite handle_response_eq.
  destruct (is_success (status_code r)); [done|]. intros H. split; [done|].
  destruct (body_fields r) as [d|]; [|left; by simplify_eq].
  right. exists d. split; [done|]. cbv zeta in H.
  destruct (carries_retry_after (status_code r)).
  - destruct (parse_retry_after _) as [ra|e'] eqn:Hp.
    + right. exists ra. by simplify_eq.
    + left. apply parse_retry_after_raises in Hp. by simplify_eq.
  - right. exists None. by simplify_eq.
Qed.

Lemma sens_fields_build_error (k : SensKind) (f : SensErrorFields)
    (ra : option Z) :
  sens_fields (build_error k f ra) = Some f.
Proof. by destruct k. Qed.

Lemma carries_by_kind (st : Z) :
  carries_retry_after st
  = match spec_error_kind st with
    | RateLimit | ServiceUnavailable => true
    | _ => false
    end.
Proof.
  unfold carries_retry_after, spec_error_kind.
  repeat match goal with
         | |- context [st =? ?n] =>
             destruct (Z.eqb_spec st n) as [->|?]; simpl
         end; done.
Qed.

(** The handler returns exactly on the four success statuses, and then
    returns the decoded body as it is, whatever its shape, or an empty
    dictionary when the body is not JSON. *)
Theorem handle_response_returns_iff_success (r : Response) (v : json) :
  handle_response r = Ok v
  ↔ is_success (status_code r) = true
    ∧ v = default (JObj ∅) (response_json r).
Proof.
  split.
  - apply handle_response_ok_inv.
  - intros [Hs ->]. by apply handle_response_success.
Qed.

(** A status the handler does not name, 203 or 206 as much as 302 or
    500, raises the base [SensError]. *)
Theorem unnamed_status_raises_base_error (r : Response)
    (d : gmap string json) :
  status_code r ∉ handled_statuses →
  body_fields r = Some d →
  handle_response r = Raise (SensError (error_fields (status_code r) d)).
Proof.
  unfold handled_statuses. rewrite !not_elem_of_cons. intros Hst Hd.
  destruct_and!.
  rewrite handle_response_eq, Hd.
  unfold is_success, carries_retry_after, spec_error_kind.
  repeat match goal with
         | |- context [status_code r =? ?n] =>
             destruct (Z.eqb_spec (status_code r) n); [done|]
         end.
  reflexivity.
Qed.

(** The exception keeps no trace of the status beyond its class and the
    default message: two error statuses of one class, on the same body with
    a [message] and the same headers, raise the same exception. *)
Theorem same_class_same_exception (st1 st2 : Z) (d : gmap string json)
    (m : json) (hd : gmap string string) :
  is_success st1 = false →
  is_success st2 = false →
  spec_error_kind st1 = spec_error_kind st2 →
  d !! "message" = Some m →
  handle_response {| status_code := st1; response_json := Some (JObj d);
                     headers := hd |}
  = handle_response {| status_code := st2; response_json := Some (JObj d);
                       headers := hd |}.
Proof.
  intros H1 H2 Hk Hm. rewrite !handle_response_eq. simpl.
  rewrite H1, H2. unfold body_fields. simpl.
  rewrite !carries_by_kind, Hk.
  unfold error_fields. by rewrite Hm.
Qed.

(** The handler reads no header but [Retry-After], and that one only on
    a 429 or a 503. *)
Theorem handler_reads_retry_after_only (st : Z) (body : option json)
    (h1 h2 : gmap string string) :
  carries_retry_after st = false
  ∨ h1 !! "Retry-After" = h2 !! "Retry-After" →
  handle_response {| status_code := st; response_json := body;
                     headers := h1 |}
  = handle_response {| status_code := st; response_json := body;
                       headers := h2 |}.
Proof.
  intros H. rewrite !handle_response_eq. simpl. unfold body_fields. simpl.
  destruct H as [-> | ->]; reflexivity.
Qed.

Lemma handle_response_raise_fields (r : Response) (e : exn)
    (f : SensErrorFields) :
  handle_response r = Raise e → sens_fields e = Some f →
  ∃ d, body_fields r = Some d ∧ f = error_fields (status_code r) d.
Proof.
  intros Hr Hf. apply handle_response_raise_inv in Hr as [_ Hr].
  destruct Hr as [[_ ->] | (d & Hd & [[_ ->] | [ra ->]])]; try done.
  exists d. split; [done|]. rewrite sens_fields_build_error in Hf.
  by simplify_eq.
Qed.

(** Printing a taxonomy error the handler raised on a body [d]: with a
    string [code] that is not empty it reads ["[<code>] <message>"], and
    with no [code], a null or an empty one, the message alone, the message
    being the body's or ["HTTP <status>"]. *)
Theorem handler_error_prints_code_then_message (r : Response) (e : exn)
    (f : SensErrorFields) (d : gmap string json) (m : string) :
  handle_response r = Raise e →
  sens_fields e = Some f →
  body_fields r = Some d →
  default (JStr ("HTTP " +:+ pretty (status_code r))) (d !! "message")
    = JStr m →
  (∀ c, d !! "code" = Some (JStr c) → c ≠ "" →
     SensError_str f = Some ("[" +:+ c +:+ "] " +:+ m))
  ∧ (d !! "code" = None ∨ d !! "code" = Some JNull
     ∨ d !! "code" = Some (JStr "") →
     SensError_str f = Some m).
Proof.
  intros Hr Hf Hd Hm.
  destruct (handle_response_raise_fields r e f Hr Hf) as (d' & Hd' & ->).
  rewrite Hd in Hd'. injection Hd' as <-.
  unfold SensError_str, error_fields, SensError_init. simpl. rewrite Hm.
  split.
  - intros c -> Hc. simpl. by destruct (String.eqb_spec c "").
  - intros [-> | [-> | ->]]; reflexivity.
Qed.

(** ** Further properties of the operations *)

(** The steps of [upload_document] up to the request, on a file that
    exists and opens. *)
Ltac upload_opens Hfile :=
  unfold upload_document;
  rewrite io_bind_unfold, path_exists_eq, Hfile; simpl;
  rewrite io_bind_unfold; unfold open_rb at 1; rewrite Hfile;
  rewrite round_trip_eq.

(** The missing-file error of [upload_document] prints as
    ["[SENS_003] File not found: <path>"]. *)
Theorem upload_missing_file_error_prints_code (self : SensClient)
    (file_path : string) (title : option string)
    (tags : option (list string)) (w : World) :
  fs w !! file_path = None →
  ∃ f, (upload_document self file_path title tags w).1
       = Raise (SensValidationError f)
     ∧ SensError_str f = Some ("[SENS_003] File not found: " +:+ file_path).
Proof.
  intros Hfs. eexists. unfold upload_document.
  rewrite io_bind_unfold, path_exists_eq, Hfs. simpl. split; reflexivity.
Qed.

(** A path that exists but is a directory, or a file that may not be
    read, passes the existence check and fails in [open]: the operating
    system's error leaves [upload_document], and nothing is sent. *)
Theorem upload_unopenable_path_sends_nothing (self : SensClient)
    (file_path : string) (title : option string)
    (tags : option (list string)) (w : World) (k : OSErrorKind) :
  (fs w !! file_path = Some Directory ∧ k = IsADirectory)
  ∨ (fs w !! file_path = Some (RegularFile false) ∧ k = PermissionDenied) →
  upload_document self file_path title tags w = (Raise (OSError k), w).
Proof.
  intros [[Hfs ->] | [Hfs ->]]; unfold upload_document;
    rewrite io_bind_unfold, path_exists_eq, Hfs; simpl;
    rewrite io_bind_unfold; unfold open_rb at 1; by rewrite Hfs.
Qed.

(** The one request an upload asks [httpx] for, which is the one sent
    unless [httpx] refuses it: a POST to [<base_url>/documents] with the
    opened file under ["file"]; the form carries ["title"] only for a title
    that is not empty and ["tags"], joined by commas, only for a list that
    is not empty, and is left out altogether when it would be empty. *)
Theorem upload_request_shape (self : SensClient) (file_path : string)
    (title : option string) (tags : option (list string)) (w : World) :
  fs w !! file_path = Some (RegularFile true) →
  ∃ req,
    asked_once w req (upload_document self file_path title tags w)
    ∧ req_method req = POST
    ∧ req_url req = base_url self +:+ "/documents"
    ∧ req_files req = Some {[ "file" := file_path ]}
    ∧ req_json req = None
    ∧ (req_data req = None
       ↔ given_text title = None ∧ given_list tags = None)
    ∧ ∀ data, req_data req = Some data →
        data !! "title" = given_text title
        ∧ data !! "tags" = str_join "," <$> given_list tags
        ∧ ∀ k, k ≠ "title" → k ≠ "tags" → data !! k = None.
Proof.
  intros Hfile. eexists. split.
  { unfold upload_document.
    rewrite io_bind_unfold, path_exists_eq, Hfile. simpl.
    rewrite io_bind_unfold. unfold open_rb at 1. rewrite Hfile.
    apply round_trip_asked_once. }
  do 4 (split; [reflexivity|]). simpl.
  unfold given_text, given_list.
  destruct title as [t|]; [destruct (str_nonempty t)|];
    (destruct tags as [[|x l]|]); case_decide as Hdec;
    try (by destruct Hdec); try (by apply insert_non_empty in Hdec);
    (split; [split; [intros ?; by simplify_eq | intros [??]; by simplify_eq]|]);
    intros data ?; simplify_eq;
    (split; [by simplify_map_eq|]);
    (split; [by simplify_map_eq|]);
    intros k ??; by simplify_map_eq.
Qed.

Lemma log_grows (w : World) (req : Request) : sent w ≠ sent w ++ [req].
Proof.
  intros H. apply (f_equal length) in H. rewrite length_app in H.
  simpl in H. lia.
Qed.

(** [upload_document], on a file that opens, returns exactly when its
    request was sent and the response has a success status and a JSON
    object with ["id"] and ["status"] as body; the document then holds
    those two and the body's title, size, tags and the two timestamps of an
    upload, [None] where the body has none, and never a [ready_at] or a
    count, whatever the body says. *)
Theorem upload_document_returns_iff (self : SensClient) (file_path : string)
    (title : option string) (tags : option (list string)) (w : World)
    (doc : Document.t) :
  fs w !! file_path = Some (RegularFile true) →
  ((upload_document self file_path title tags w).1 = Ok doc
   ↔ ∃ req r d i s,
       sent (upload_document self file_path title tags w).2
         = sent w ++ [req]
       ∧ network w (sent (upload_document self file_path title tags w).2)
         = Responded r
       ∧ is_success (status_code r) = true
       ∧ response_json r = Some (JObj d)
       ∧ d !! "id" = Some i
       ∧ d !! "status" = Some s
       ∧ doc = uploaded_document d i s).
Proof.
  intros Hfile.
  set (out := upload_document self file_path title tags w).
  eassert (E : out = _) by (subst out; upload_opens Hfile; reflexivity).
  rewrite E. clear E out.
  destruct (network w (sent w ++ _)) as [r| |e0] eqn:Hn;
    cbn [fst snd log_request sent].
  - rewrite Hn. split.
    + intros H. eexists _, r.
      destruct (handle_response r) as [result|] eqn:Hh; [|done].
      apply handle_response_ok_inv in Hh as [Hs ->].
      rewrite result_bind_ok in H.
      destruct (response_json r) as [[| | | | | |d]|]; try done; simpl in H.
      destruct (d !! "id") as [i|] eqn:Hi; [|done].
      destruct (d !! "status") as [st|] eqn:Hst; [|done].
      exists d, i, st. simpl in H. by simplify_eq.
    + intros (req & r' & d & i & st & _ & [= <-] & Hs & Hb & Hi & Hst & ->).
      rewrite handle_response_success, Hb by done. simpl.
      by rewrite Hi, Hst.
  - rewrite Hn. split; [done|]. by intros (?&?&?&?&?&?&?&?).
  - split; [done|]. intros (req & ? & ? & ? & ? & Hlen & _).
    by apply log_grows in Hlen.
Qed.

(** [get_document] returns exactly when its request was sent and the
    response has a success status and a JSON object with ["id"] and
    ["status"] as body; the document holds the body's fields, [None] where
    the body has none, and never an [estimated_ready_at]. *)
Theorem get_document_returns_iff (self : SensClient) (document_id : string)
    (w : World) (doc : Document.t) :
  (get_document self document_id w).1 = Ok doc
  ↔ ∃ r d i s,
      sent (get_document self document_id w).2
        = sent w ++ [bare_request GET
                       (base_url self +:+ "/documents/" +:+ document_id)]
      ∧ network w (sent (get_document self document_id w).2) = Responded r
      ∧ is_success (status_code r) = true
      ∧ response_json r = Some (JObj d)
      ∧ d !! "id" = Some i
      ∧ d !! "status" = Some s
      ∧ doc = fetched_document d i s.
Proof.
  unfold get_document, bare_request. rewrite round_trip_eq.
  destruct (network w (sent w ++ _)) as [r| |e0] eqn:Hn;
    cbn [fst snd log_request sent].
  - rewrite Hn. split.
    + intros H. exists r.
      destruct (handle_response r) as [result|] eqn:Hh; [|done].
      apply handle_response_ok_inv in Hh as [Hs ->].
      rewrite result_bind_ok in H.
      destruct (response_json r) as [[| | | | | |d]|]; try done; simpl in H.
      destruct (d !! "id") as [i|] eqn:Hi; [|done].
      destruct (d !! "status") as [st|] eqn:Hst; [|done].
      exists d, i, st. simpl in H. by simplify_eq.
    + intros (r' & d & i & st & _ & [= <-] & Hs & Hb & Hi & Hst & ->).
      rewrite handle_response_success, Hb by done. simpl.
      by rewrite Hi, Hst.
  - rewrite Hn. split; [done|]. by intros (?&?&?&?&?&?&?).
  - split; [done|]. intros (? & ? & ? & ? & Hlen & _).
    by apply log_grows in Hlen.
Qed.

(** [delete_document] returns exactly when its request was sent and the
    response has a success status: the body is not looked at. *)
Theorem delete_document_returns_iff_success (self : SensClient)
    (document_id : string) (w : World) :
  (delete_document self document_id w).1 = Ok tt
  ↔ ∃ r,
      sent (delete_document self document_id w).2
        = sent w ++ [bare_request DELETE
                       (base_url self +:+ "/documents/" +:+ document_id)]
      ∧ network w (sent (delete_document self document_id w).2)
        = Responded r
      ∧ is_success (status_code r) = true.
Proof.
  unfold delete_document, bare_request. rewrite round_trip_eq.
  destruct (network w (sent w ++ _)) as [r| |e0] eqn:Hn;
    cbn [fst snd log_request sent].
  - rewrite Hn. split.
    + intros H. exists r. do 2 (split; [done|]).
      destruct (handle_response r) as [result|] eqn:Hh; [|done].
      by apply handle_response_ok_inv in Hh as [Hs _].
    + intros (r' & _ & [= <-] & Hs). by rewrite handle_response_success.
  - rewrite Hn. split; [done|]. by intros (?&?&?&?).
  - split; [done|]. intros (? & Hlen & _). by apply log_grows in Hlen.
Qed.

(** A success whose body is JSON but no object (a list, a string, a
    number, [null]): [delete_document] returns, the two document
    operations raise [TypeError] on [result["id"]], and the two query
    operations raise [AttributeError] on [result.get]. *)
Theorem success_with_non_object_body (self : SensClient) (w : World)
    (r : Response) (v : json) :
  next_response w r →
  is_success (status_code r) = true →
  response_json r = Some v →
  (∀ d, v ≠ JObj d) →
  (∀ id, (delete_document self id w).1 = Ok tt)
  ∧ (∀ id, (get_document self id w).1 = Raise TypeError)
  ∧ (∀ q ids tags limit threshold,
       (query self q ids tags limit threshold w).1 = Raise AttributeError)
  ∧ (∀ qid, (get_context_rail self qid w).1 = Raise AttributeError)
  ∧ (∀ path title tags,
       fs w !! path = Some (RegularFile true) →
       (upload_document self path title tags w).1 = Raise TypeError).
Proof.
  intros Hnext Hs Hbody Hv.
  assert (Hh : handle_response r = Ok v)
    by (by rewrite handle_response_success, Hbody).
  assert (Hget : ∀ k dflt, py_get v k dflt = Raise AttributeError)
    by (intros; destruct v; try done; by destruct (Hv fields)).
  assert (Hitem : ∀ k, py_getitem v k = Raise TypeError)
    by (intros; destruct v; try done; by destruct (Hv fields)).
  split; [|split; [|split; [|split]]].
  - intros id. unfold delete_document.
    by rewrite round_trip_eq, (Hnext _), Hh.
  - intros id. unfold get_document.
    rewrite round_trip_eq, (Hnext _), Hh, result_bind_ok.
    cbv beta. rewrite (Hitem "id"). reflexivity.
  - intros q ids tags limit threshold. unfold query. cbv zeta.
    rewrite round_trip_eq, (Hnext _), Hh, result_bind_ok.
    cbv beta. rewrite (Hget "sources"). reflexivity.
  - intros qid. unfold get_context_rail.
    rewrite round_trip_eq, (Hnext _), Hh, result_bind_ok.
    cbv beta. rewrite (Hget "sources"). reflexivity.
  - intros path title tags Hfile. upload_opens Hfile.
    rewrite (Hnext _), Hh, result_bind_ok. cbv beta. rewrite (Hitem "id"). reflexivity.
Qed.

(** When the transport fails, every operation that got to send its
    request raises the transport's exception, with that one request on the
    log. *)
Theorem transport_failure_propagates (self : SensClient) (w : World) :
  next_fails w →
  (∀ id, (get_document self id w).1 = Raise TransportError
         ∧ length (sent (get_document self id w).2) = S (length (sent w)))
  ∧ (∀ id, (delete_document self id w).1 = Raise TransportError
           ∧ length (sent (delete_document self id w).2)
             = S (length (sent w)))
  ∧ (∀ q ids tags limit threshold,
       (query self q ids tags limit threshold w).1 = Raise TransportError
       ∧ length (sent (query self q ids tags limit threshold w).2)
         = S (length (sent w)))
  ∧ (∀ qid, (get_context_rail self qid w).1 = Raise TransportError
            ∧ length (sent (get_context_rail self qid w).2)
              = S (length (sent w)))
  ∧ (∀ path title tags,
       fs w !! path = Some (RegularFile true) →
       (upload_document self path title tags w).1 = Raise TransportError
       ∧ length (sent (upload_document self path title tags w).2)
         = S (length (sent w))).
Proof.
  intros Hfail.
  assert (Hlen : ∀ req, length (sent w ++ [req]) = S (length (sent w)))
    by (intros; rewrite length_app; simpl; lia).
  split; [|split; [|split; [|split]]].
  - intros id. unfold get_document.
    rewrite round_trip_eq, (Hfail _). simpl. by rewrite Hlen.
  - intros id. unfold delete_document.
    rewrite round_trip_eq, (Hfail _). simpl. by rewrite Hlen.
  - intros q ids tags limit threshold. unfold query. cbv zeta.
    rewrite round_trip_eq, (Hfail _). simpl. by rewrite Hlen.
  - intros qid. unfold get_context_rail.
    rewrite round_trip_eq, (Hfail _). simpl. by rewrite Hlen.
  - intros path title tags Hfile.
    set (out := upload_document self path title tags w).
    eassert (E : out = _) by (subst out; upload_opens Hfile; reflexivity).
    rewrite E. clear E out.
    rewrite (Hfail _). simpl. by rewrite Hlen.
Qed.

(** The one request a query asks [httpx] for, which is the one sent
    unless [httpx] refuses it: a POST to [<base_url>/query] whose JSON body
    always has [query], [limit] and [confidence_threshold], has
    [document_ids] and [tags] only for lists that are given and not empty
    (an empty list is sent as no filter at all), and has nothing else. *)
Theorem query_request_shape (self : SensClient) (q : string)
    (ids tags : option (list string)) (limit : Z) (threshold : spec_float)
    (w : World) :
  ∃ payload,
    asked_once w
      {| req_method := POST;
         req_url := base_url self +:+ "/query";
         req_files := None;
         req_data := None;
         req_json := Some (JObj payload) |}
      (query self q ids tags limit threshold w)
    ∧ payload !! "query" = Some (JStr q)
    ∧ payload !! "limit" = Some (JInt limit)
    ∧ payload !! "confidence_threshold" = Some (JFloat threshold)
    ∧ payload !! "document_ids"
      = (λ l, JArr (JStr <$> l)) <$> given_list ids
    ∧ payload !! "tags" = (λ l, JArr (JStr <$> l)) <$> given_list tags
    ∧ ∀ k, k ∉ ["query"; "limit"; "confidence_threshold"; "document_ids";
                "tags"] → payload !! k = None.
Proof.
  eexists. split.
  { unfold query. cbv zeta. apply round_trip_asked_once. }
  destruct ids as [[|x l]|], tags as [[|y l']|]; simpl;
    (do 5 (split; [by simplify_map_eq|]));
    intros k Hk; rewrite !not_elem_of_cons in Hk; destruct_and!;
    by simplify_map_eq.
Qed.

Lemma comprehension_cons {A B : Type} (f : A → result B) (x : A)
    (l : list A) :
  comprehension f (x :: l)
  = (y ← f x; ys ← comprehension f l; Ok (y :: ys)).
Proof. reflexivity. Qed.

Lemma query_source_without_id (sd : gmap string json) :
  sd !! "document_id" = None →
  query_source (JObj sd) = Raise (KeyError "document_id").
Proof. intros H. unfold query_source. simpl. by rewrite H. Qed.

Lemma query_source_with_id (sd : gmap string json) (v : json) :
  sd !! "document_id" = Some v → ∃ src, query_source (JObj sd) = Ok src.
Proof. intros H. unfold query_source. simpl. rewrite H. by eexists. Qed.

Lemma query_source_bad_entry (entries : list json) :
  Forall (λ s, ∃ sd, s = JObj sd) entries →
  Exists (λ s, ∃ sd, s = JObj sd ∧ sd !! "document_id" = None) entries →
  comprehension query_source entries = Raise (KeyError "document_id").
Proof.
  induction 1 as [|s l [sd ->] _ IH]; intros Hex.
  - by apply Exists_nil in Hex.
  - rewrite comprehension_cons.
    destruct (sd !! "document_id") as [v|] eqn:Hid.
    + destruct (query_source_with_id sd v Hid) as [src ->].
      apply Exists_cons in Hex as [(sd' & [= <-] & Hnone) | Hex];
        [congruence|].
      by rewrite result_bind_ok, (IH Hex).
    + by rewrite (query_source_without_id sd Hid).
Qed.

(** [query] returns all the sources or none: when every entry of the
    body's [sources] is an object and one of them has no ["document_id"],
    the call raises [KeyError], however complete the rest of the body. *)
Theorem query_fails_on_source_without_document_id (self : SensClient)
    (q : string) (ids tags : option (list string)) (limit : Z)
    (threshold : spec_float) (w : World) (r : Response)
    (d : gmap string json) (entries : list json) :
  next_response w r →
  is_success (status_code r) = true →
  response_json r = Some (JObj d) →
  d !! "sources" = Some (JArr entries) →
  Forall (λ s, ∃ sd, s = JObj sd) entries →
  Exists (λ s, ∃ sd, s = JObj sd ∧ sd !! "document_id" = None) entries →
  (query self q ids tags limit threshold w).1
  = Raise (KeyError "document_id").
Proof.
  intros Hnext Hs Hbody Hsrc Hall Hbad.
  pose proof (query_source_bad_entry entries Hall Hbad) as Hc.
  unfold query_source in Hc.
  unfold query. cbv zeta.
  rewrite round_trip_eq, (Hnext _), handle_response_success, Hbody by done.
  simpl. rewrite Hsrc. simpl. by rewrite Hc.
Qed.

Lemma query_ok_inv (self : SensClient) (q : string)
    (ids tags : option (list string)) (limit : Z) (threshold : spec_float)
    (w w' : World) (qr : QueryResult.t) :
  query self q ids tags limit threshold w = (Ok qr, w') →
  ∃ r d entries,
    network w (sent w') = Responded r
    ∧ is_success (status_code r) = true
    ∧ response_json r = Some (JObj d)
    ∧ py_iter (default (JArr []) (d !! "sources")) = Ok entries
    ∧ comprehension query_source entries = Ok (QueryResult.sources qr)
    ∧ d !! "query_id" = Some (QueryResult.query_id qr)
    ∧ d !! "query" = Some (QueryResult.query qr)
    ∧ d !! "answer" = Some (QueryResult.answer qr)
    ∧ d !! "confidence_score" = Some (QueryResult.confidence_score qr)
    ∧ d !! "processing_time_ms"
      = Some (QueryResult.processing_time_ms qr).
Proof.
  intros H. unfold query in H. cbv zeta in H. rewrite round_trip_eq in H.
  destruct (network w (sent w ++ _)) as [r| |e0] eqn:Hn; [|done|done].
  injection H as H <-. simpl.
  exists r.
  destruct (handle_response r) as [result|] eqn:Hh; [|done].
  apply handle_response_ok_inv in Hh as [Hs ->].
  rewrite result_bind_ok in H.
  destruct (response_json r) as [[| | | | | |d]|]; try done.
  exists d. simpl in H.
  destruct (py_iter (default (JArr []) (d !! "sources"))) as [entries|]
    eqn:Hit; [|done].
  exists entries. simpl in H.
  destruct (comprehension _ entries) as [ys|] eqn:Hc; [|done].
  simpl in H.
  destruct (d !! "query_id") eqn:?; [simpl in H|done].
  destruct (d !! "query") eqn:?; [simpl in H|done].
  destruct (d !! "answer") eqn:?; [simpl in H|done].
  destruct (d !! "confidence_score") eqn:?; [simpl in H|done].
  destruct (d !! "processing_time_ms") eqn:?; [simpl in H|done].
  injection H as <-. simpl. by repeat split.
Qed.

(** The sources of a [QueryResult] are terse: [excerpt],
    [semantic_layer], [matched_concepts] and [pragmatic_insights] are
    [None] in every one of them, whatever the body holds. *)
Theorem query_sources_are_terse (self : SensClient) (q : string)
    (ids tags : option (list string)) (limit : Z) (threshold : spec_float)
    (w w' : World) (qr : QueryResult.t) :
  query self q ids tags limit threshold w = (Ok qr, w') →
  Forall terse (QueryResult.sources qr).
Proof.
  intros H. apply query_ok_inv in H
    as (r & d & entries & _ & _ & _ & _ & Hc & _).
  apply comprehension_Forall2 in Hc.
  induction Hc as [|s src l l' Hs _ IH]; constructor; [|done].
  unfold query_source in Hs.
  destruct (py_getitem s "document_id"); [|done].
  rewrite result_bind_ok in Hs.
  repeat match type of Hs with
         | (opt_get ?v ?k ≫= _) = _ =>
             destruct (opt_get v k); [rewrite result_bind_ok in Hs|done]
         end.
  injection Hs as <-. by repeat split.
Qed.

(** The scalar fields of a [QueryResult] are the body's values as they
    came: [query_id], [query], [answer], [confidence_score] and
    [processing_time_ms] are read with no check of type or range. *)
Theorem query_result_fields_are_the_body_s (self : SensClient) (q : string)
    (ids tags : option (list string)) (limit : Z) (threshold : spec_float)
    (w w' : World) (qr : QueryResult.t) :
  query self q ids tags limit threshold w = (Ok qr, w') →
  ∃ r d,
    network w (sent w') = Responded r
    ∧ response_json r = Some (JObj d)
    ∧ d !! "query_id" = Some (QueryResult.query_id qr)
    ∧ d !! "query" = Some (QueryResult.query qr)
    ∧ d !! "answer" = Some (QueryResult.answer qr)
    ∧ d !! "confidence_score" = Some (QueryResult.confidence_score qr)
    ∧ d !! "processing_time_ms"
      = Some (QueryResult.processing_time_ms qr).
Proof.
  intros H. apply query_ok_inv in H
    as (r & d & entries & Hn & _ & Hb & _ & _ & H1 & H2 & H3 & H4 & H5).
  by exists r, d.
Qed.

Lemma rail_source_ok (s : json) (src : Source.t) :
  rail_source s = Ok src → rail_source_of s src.
Proof.
  unfold rail_source. destruct s; try done. simpl.
  destruct (fields !! "document_id") as [v|] eqn:Hid; [|done]. simpl.
  intros [= <-]. exists fields. by repeat split.
Qed.

(** When [get_context_rail] returns, the body was an object: [query_id],
    [query] and [retrieved_at] are the body's, [summary] is the body's or
    an empty dictionary, and [sources] has one [Source] per entry of the
    body's list, in its order, each with all eight fields read from the
    entry ([None] for those it lacks); no [sources] gives an empty list. *)
Theorem context_rail_follows_the_body (self : SensClient) (qid : string)
    (w w' : World) (cr : ContextRail.t) :
  get_context_rail self qid w = (Ok cr, w') →
  ∃ r d,
    network w (sent w') = Responded r
    ∧ is_success (status_code r) = true
    ∧ response_json r = Some (JObj d)
    ∧ d !! "query_id" = Some (ContextRail.query_id cr)
    ∧ d !! "query" = Some (ContextRail.query cr)
    ∧ d !! "retrieved_at" = Some (ContextRail.retrieved_at cr)
    ∧ ContextRail.summary cr = default (JObj ∅) (d !! "summary")
    ∧ (∀ entries, d !! "sources" = Some (JArr entries) →
         Forall2 rail_source_of entries (ContextRail.sources cr))
    ∧ (d !! "sources" = None → ContextRail.sources cr = []).
Proof.
  intros H. unfold get_context_rail in H. rewrite round_trip_eq in H.
  destruct (network w (sent w ++ _)) as [r| |e0] eqn:Hn; [|done|done].
  injection H as H <-. simpl.
  exists r.
  destruct (handle_response r) as [result|] eqn:Hh; [|done].
  apply handle_response_ok_inv in Hh as [Hs ->].
  rewrite result_bind_ok in H.
  destruct (response_json r) as [[| | | | | |d]|]; try done.
  exists d. simpl in H.
  destruct (py_iter (default (JArr []) (d !! "sources"))) as [entries|]
    eqn:Hit; [|done].
  simpl in H.
  destruct (comprehension _ entries) as [ys|] eqn:Hc; [|done].
  simpl in H.
  destruct (d !! "query_id") eqn:?; [simpl in H|done].
  destruct (d !! "query") eqn:?; [simpl in H|done].
  destruct (d !! "retrieved_at") eqn:?; [simpl in H|done].
  injection H as <-. simpl.
  do 7 (split; [done|]).
  change (comprehension rail_source entries = Ok ys) in Hc.
  apply comprehension_Forall2 in Hc.
  split.
  - intros entries' Hsrc. rewrite Hsrc in Hit. simpl in Hit.
    injection Hit as <-.
    eapply Forall2_impl; [exact Hc|]. intros s src. apply rail_source_ok.
  - intros Hsrc. rewrite Hsrc in Hit. simpl in Hit. injection Hit as <-.
    by inversion Hc.
Qed.

Lemma rstrip_slash_spec (s : string) :
  ∃ n, s = rstrip_slash s +:+ slashes n
     ∧ ends_with_slash (rstrip_slash s) = false.
Proof.
  induction s as [|c s' (n & Hs & He)]; [by exists 0%nat|].
  simpl. destruct (Ascii.eqb_spec c "/") as [->|Hc]; simpl.
  - destruct (rstrip_slash s') as [|c' r] eqn:Hr; simpl.
    + exists (S n). simpl in Hs. by rewrite Hs at 1.
    + exists n. split; [by rewrite Hs at 1|done].
  - exists n. split; [by rewrite Hs at 1|].
    destruct (rstrip_slash s') as [|c' r]; [|done].
    by destruct (Ascii.eqb_spec c "/").
Qed.

Lemma SensClient_init_eq (key : option string) (base : string) (t : Z)
    (w : World) :
  SensClient_init key base t w
  = match match key with
          | Some k => if str_nonempty k then Some k
                      else environ w !! "SENS_API_KEY"
          | None => environ w !! "SENS_API_KEY"
          end with
    | Some k =>
        if str_nonempty k then
          (if is_ascii k then Ok (client_with_key k base t)
           else Raise UnicodeEncodeError, w)
        else (Raise missing_key_error, w)
    | None => (Raise missing_key_error, w)
    end.
Proof.
  assert (Hbuild : ∀ k : string,
    (client ← lift (httpx_Client (get_headers k) t);
     mret {| api_key := k; base_url := rstrip_slash base;
             timeout := t; _client := client |}) w
    = (if is_ascii k then Ok (client_with_key k base t)
       else Raise UnicodeEncodeError, w)).
  { intros k. rewrite io_bind_unfold. unfold lift.
    rewrite httpx_Client_get_headers. by destruct (is_ascii k). }
  unfold SensClient_init. rewrite io_bind_unfold.
  destruct key as [k|]; [destruct (str_nonempty k) eqn:Hk|].
  - cbn [mret io_ret]. rewrite Hk. apply Hbuild.
  - unfold getenv.
    destruct (environ w !! "SENS_API_KEY") as [k0|]; [|done].
    destruct (str_nonempty k0); [apply Hbuild|done].
  - unfold getenv.
    destruct (environ w !! "SENS_API_KEY") as [k0|]; [|done].
    destruct (str_nonempty k0); [apply Hbuild|done].
Qed.

(** Every client the constructor returns, it returns without touching
    the world, and: its key is not empty and is the argument's or the
    environment's; its base URL is the argument's with the slashes at its
    end removed, so it ends in none; its timeout is the argument's, also on
    the transport; and the transport's default headers are the bearer
    authorization for that key, the JSON content type and the SDK's user
    agent. *)
Theorem constructed_client_invariant (key : option string) (base : string)
    (t : Z) (w w' : World) (c : SensClient) :
  SensClient_init key base t w = (Ok c, w') →
  w' = w
  ∧ api_key c ≠ ""
  ∧ (key = Some (api_key c)
     ∨ environ w !! "SENS_API_KEY" = Some (api_key c))
  ∧ base_url c = rstrip_slash base
  ∧ ends_with_slash (base_url c) = false
  ∧ (∃ n, base = base_url c +:+ slashes n)
  ∧ timeout c = t
  ∧ client_timeout (_client c) = t
  ∧ client_headers (_client c) !! "Authorization"
    = Some ("Bearer " +:+ api_key c)
  ∧ client_headers (_client c) !! "Content-Type" = Some "application/json"
  ∧ client_headers (_client c) !! "User-Agent"
    = Some "sens-prism-sdk/0.4.0".
Proof.
  intros H. destruct (rstrip_slash_spec base) as (n & Hn & He).
  assert (Hc : w' = w ∧ ∃ k0, k0 ≠ "" ∧ c = client_with_key k0 base t
               ∧ (key = Some k0 ∨ environ w !! "SENS_API_KEY" = Some k0)).
  { rewrite SensClient_init_eq in H.
    assert (Hne : ∀ k : string, str_nonempty k = true → k ≠ "")
      by (by intros k Hk ->).
    destruct key as [k|]; [destruct (str_nonempty k) eqn:Hk|].
    - rewrite Hk in H. destruct (is_ascii k); [|done].
      injection H as <- <-. split; [done|]. exists k. auto.
    - destruct (environ w !! "SENS_API_KEY") as [k0|] eqn:Henv; [|done].
      destruct (str_nonempty k0) eqn:Hk0; [|done].
      destruct (is_ascii k0); [|done].
      injection H as <- <-. split; [done|]. exists k0. auto.
    - destruct (environ w !! "SENS_API_KEY") as [k0|] eqn:Henv; [|done].
      destruct (str_nonempty k0) eqn:Hk0; [|done].
      destruct (is_ascii k0); [|done].
      injection H as <- <-. split; [done|]. exists k0. auto. }
  destruct Hc as (-> & k0 & Hk0 & -> & Hsrc).
  unfold client_with_key, get_headers. simpl.
  split; [done|]. split; [done|]. split; [done|]. split; [done|].
  split; [done|]. split; [by exists n|].
  by repeat split.
Qed.
End Client.

(** ** The theorems at concrete inputs *)

Lemma always_next_response (r : Response) :
  next_response (world0 (always r)) r.
Proof. intros req. reflexivity. Qed.

(** The error table on the specification's rate-limit scenario: a 429
    with [Retry-After: 5] raises the rate-limit error with
    [retry_after = 5]. *)
Lemma handle_response_error_table_witness :
  is_success (status_code resp_429_five) = false
  ∧ ∃ e, handle_response cpython_default_digits resp_429_five = Raise e
       ∧ sens_kind e = Some RateLimit
       ∧ sens_fields e = Some slow_down_fields
       ∧ sens_retry_after e = Some (Some 5).
Proof.
  split; [reflexivity|].
  destruct (handle_response_error_table cpython_default_digits
              resp_429_five
              {[ "message" := JStr "slow down"; "code" := JStr "SENS_429" ]}
              (Some 5) eq_refl eq_refl eq_refl)
    as (e & He & Hk & Hf & Hra).
  exists e. split; [exact He|]. split; [exact Hk|]. split; [exact Hf|].
  exact (Hra eq_refl).
Defined.

(** The same scenario read through the header: "5" is the decimal form
    of 5. *)
Lemma retry_after_of_decimal_header_witness :
  carries_retry_after (status_code resp_429_five) = true
  ∧ headers resp_429_five !! "Retry-After" = Some (pretty 5)
  ∧ fits_limit cpython_default_digits 5
  ∧ ∃ e, handle_response cpython_default_digits resp_429_five = Raise e
       ∧ sens_kind e = Some RateLimit
       ∧ sens_retry_after e = Some (Some 5).
Proof.
  assert (Hfit : fits_limit cpython_default_digits 5)
    by (unfold fits_limit; simpl; lia).
  split; [reflexivity|]. split; [reflexivity|]. split; [exact Hfit|].
  destruct (retry_after_of_decimal_header cpython_default_digits
              resp_429_five
              {[ "message" := JStr "slow down"; "code" := JStr "SENS_429" ]}
              eq_refl eq_refl) as [_ H].
  exact (H 5 eq_refl Hfit).
Defined.

(** The fields of a taxonomy error on the same scenario. *)
Lemma handle_response_error_carries_body_fields_witness :
  handle_response cpython_default_digits resp_429_five
    = Raise (SensRateLimitError slow_down_fields (Some 5))
  ∧ ∃ d, body_fields resp_429_five = Some d
       ∧ message slow_down_fields
         = default (JStr ("HTTP " +:+ pretty 429)) (d !! "message")
       ∧ code slow_down_fields = default JNull (d !! "code")
       ∧ details slow_down_fields
         = py_or (default (JObj ∅) (d !! "details")) (JObj ∅).
Proof.
  assert (H : handle_response cpython_default_digits resp_429_five
              = Raise (SensRateLimitError slow_down_fields (Some 5)))
    by (vm_compute; reflexivity).
  split; [exact H|].
  destruct (handle_response_error_carries_body_fields cpython_default_digits
              resp_429_five _ slow_down_fields H eq_refl)
    as (d & Hd & Hm & Hc & Hdet & _).
  exists d. split; [exact Hd|]. split; [exact Hm|]. split; [exact Hc|].
  exact Hdet.
Defined.

(** C3: the claim fails on an upload answered by a 200 whose body is not
    JSON: the file is there, the request goes out, and building the
    [Document] raises [KeyError]. *)
Lemma upload_success_without_json_raises_key_error :
  is_success (status_code resp_200_not_json) = true
  ∧ response_json resp_200_not_json = None
  ∧ (upload_document cpython_default_digits client0 "/tmp/report.pdf"
       None None (world0 (always resp_200_not_json))).1
    = Raise (KeyError "id").
Proof. repeat split; vm_compute; reflexivity. Qed.

(** C3 (as amended) at that response. *)
Lemma success_without_json_is_empty_mapping_witness :
  next_response (world0 (always resp_200_not_json)) resp_200_not_json
  ∧ handle_response cpython_default_digits resp_200_not_json = Ok (JObj ∅)
  ∧ (delete_document cpython_default_digits client0 "doc_1"
       (world0 (always resp_200_not_json))).1 = Ok tt
  ∧ (get_document cpython_default_digits client0 "doc_1"
       (world0 (always resp_200_not_json))).1 = Raise (KeyError "id").
Proof.
  split; [apply always_next_response|].
  destruct (success_without_json_is_empty_mapping cpython_default_digits
              client0 (world0 (always resp_200_not_json)) resp_200_not_json
              (always_next_response _) eq_refl eq_refl)
    as (_ & Hh & Hdel & Hget & _).
  split; [exact Hh|]. split; [apply Hdel|apply Hget].
Defined.

(** C4 at a path that is not in the file system. *)
Lemma upload_missing_file_sends_nothing_witness :
  fs (world0 (always resp_202_doc)) !! "/tmp/missing.pdf" = None
  ∧ sent (upload_document cpython_default_digits client0 "/tmp/missing.pdf"
            None None (world0 (always resp_202_doc))).2
    = sent (world0 (always resp_202_doc)).
Proof.
  split; [reflexivity|].
  apply (upload_missing_file_sends_nothing cpython_default_digits client0
           "/tmp/missing.pdf" None None (world0 (always resp_202_doc))).
  reflexivity.
Defined.




(** C9 on an answer with two sources. *)
Lemma query_sources_follow_the_body_witness :
  query cpython_default_digits client0 "what" None None 3 (S754_zero false)
    (world0 (always resp_200_answer))
    = (Ok answer_result,
       log_request
         {| req_method := POST;
            req_url := "https://api.sens.ai/v1/query";
            req_files := None;
            req_data := None;
            req_json := Some (JObj {[ "query" := JStr "what";
                                      "limit" := JInt 3;
                                      "confidence_threshold"
                                        := JFloat (S754_zero false) ]}) |}
         (world0 (always resp_200_answer)))
  ∧ ∃ r d, response_json r = Some (JObj d)
         ∧ (∀ entries, d !! "sources" = Some (JArr entries) →
              length (QueryResult.sources answer_result) = length entries).
Proof.
  assert (H : query cpython_default_digits client0 "what" None None 3
                (S754_zero false) (world0 (always resp_200_answer))
    = (Ok answer_result,
       log_request
         {| req_method := POST;
            req_url := "https://api.sens.ai/v1/query";
            req_files := None;
            req_data := None;
            req_json := Some (JObj {[ "query" := JStr "what";
                                      "limit" := JInt 3;
                                      "confidence_threshold"
                                        := JFloat (S754_zero false) ]}) |}
         (world0 (always resp_200_answer))))
    by (vm_compute; reflexivity).
  split; [exact H|].
  destruct (query_sources_follow_the_body cpython_default_digits _ _ _ _ _ _
              _ _ _ H) as (r & d & _ & _ & Hbody & Hsrc & _).
  exists r, d. split; [exact Hbody|].
  intros entries He. exact (proj1 (proj2 (Hsrc entries He))).
Defined.

(** C10: the claim fails on a 200 whose body is an empty object:
    the handler raises nothing, and [get_document] raises [KeyError]. *)
Lemma get_document_key_error_not_from_status :
  handle_response cpython_default_digits resp_200_empty_object
    = Ok (JObj ∅)
  ∧ (get_document cpython_default_digits client0 "doc_1"
       (world0 (always resp_200_empty_object))).1 = Raise (KeyError "id").
Proof. split; vm_compute; reflexivity. Qed.


(** C10 (as amended) on the specification's scenario, a 404 for
    [get_context_rail "q_123"], which is one request and the not-found
    error of the handler; and on an id with a line feed in it, which
    [httpx] refuses. *)
Lemma id_operations_have_no_local_check_witness :
  sent (get_context_rail cpython_default_digits client0 "q_123"
          (world0 (always resp_404_no_body))).2
    = [bare_request GET "https://api.sens.ai/v1/context-rail/q_123"]
  ∧ from_round_trip cpython_default_digits
      (world0 (always resp_404_no_body))
      (bare_request GET "https://api.sens.ai/v1/context-rail/q_123")
      true (SensNotFoundError not_found_fields)
  ∧ delete_document cpython_default_digits client0 newline_id
      (world0 (guarded resp_404_no_body))
    = (Raise InvalidURL, world0 (guarded resp_404_no_body)).
Proof.
  destruct (id_operations_have_no_local_check cpython_default_digits
              client0 "q_123" (world0 (always resp_404_no_body)))
    as (_ & _ & Hsent & Herr).
  split; [exact Hsent|]. split; [apply Herr; vm_compute; reflexivity|].
  destruct (id_operations_have_no_local_check cpython_default_digits
              client0 newline_id (world0 (guarded resp_404_no_body)))
    as (_ & [Hdel _] & _).
  exact Hdel.
Defined.

(** ** The further properties at concrete inputs *)

Lemma unnamed_status_raises_base_error_witness :
  (status_code resp_206_no_body ∉ handled_statuses)
  ∧ handle_response cpython_default_digits resp_206_no_body
    = Raise (SensError {| message := JStr "HTTP 206"; code := JNull;
                          details := JObj ∅ |}).
Proof.
  assert (H : status_code resp_206_no_body ∉ handled_statuses).
  { unfold handled_statuses. rewrite !not_elem_of_cons.
    repeat split; try discriminate. apply not_elem_of_nil. }
  split; [exact H|].
  apply (unnamed_status_raises_base_error cpython_default_digits
           resp_206_no_body ∅ H eq_refl).
Defined.

Lemma same_class_same_exception_witness :
  spec_error_kind 401 = spec_error_kind 403
  ∧ handle_response cpython_default_digits (resp_denied 401)
    = handle_response cpython_default_digits (resp_denied 403).
Proof.
  split; [reflexivity|].
  apply (same_class_same_exception cpython_default_digits 401 403
           {[ "message" := JStr "denied" ]} (JStr "denied") ∅);
    reflexivity.
Defined.

Lemma handler_reads_retry_after_only_witness :
  carries_retry_after 500 = false
  ∧ handle_response cpython_default_digits
      (resp_500_with {[ "Retry-After" := http_date ]})
    = handle_response cpython_default_digits (resp_500_with ∅).
Proof.
  split; [reflexivity|].
  apply (handler_reads_retry_after_only cpython_default_digits 500 None).
  left. reflexivity.
Defined.

Lemma handler_error_prints_code_then_message_witness :
  handle_response cpython_default_digits resp_429_five
    = Raise (SensRateLimitError slow_down_fields (Some 5))
  ∧ SensError_str slow_down_fields = Some "[SENS_429] slow down".
Proof.
  assert (H : handle_response cpython_default_digits resp_429_five
              = Raise (SensRateLimitError slow_down_fields (Some 5)))
    by (vm_compute; reflexivity).
  split; [exact H|].
  destruct (handler_error_prints_code_then_message cpython_default_digits
              resp_429_five _ slow_down_fields
              {[ "message" := JStr "slow down"; "code" := JStr "SENS_429" ]}
              "slow down" H eq_refl eq_refl eq_refl) as [Hcode _].
  apply (Hcode "SENS_429"); [reflexivity|discriminate].
Defined.

Lemma upload_missing_file_error_prints_code_witness :
  fs (world0 (always resp_202_doc)) !! "/tmp/missing.pdf" = None
  ∧ ∃ f, (upload_document cpython_default_digits client0
            "/tmp/missing.pdf" None None (world0 (always resp_202_doc))).1
         = Raise (SensValidationError f)
       ∧ SensError_str f
         = Some ("[SENS_003] File not found: " +:+ "/tmp/missing.pdf").
Proof.
  split; [reflexivity|].
  apply (upload_missing_file_error_prints_code cpython_default_digits).
  reflexivity.
Defined.

Lemma upload_unopenable_path_sends_nothing_witness :
  fs world_with_directory !! "/tmp" = Some Directory
  ∧ upload_document cpython_default_digits client0 "/tmp" None None
      world_with_directory
    = (Raise (OSError IsADirectory), world_with_directory).
Proof.
  split; [reflexivity|].
  apply (upload_unopenable_path_sends_nothing cpython_default_digits).
  left. split; reflexivity.
Defined.

Lemma upload_request_shape_witness :
  fs (world0 (always resp_202_doc)) !! "/tmp/report.pdf"
    = Some (RegularFile true)
  ∧ ∃ req,
      sent (upload_document cpython_default_digits client0
              "/tmp/report.pdf" (Some "") (Some ["a"; "b"])
              (world0 (always resp_202_doc))).2
        = sent (world0 (always resp_202_doc)) ++ [req]
      ∧ ∀ data, req_data req = Some data →
          data !! "title" = None ∧ data !! "tags" = Some "a,b".
Proof.
  split; [reflexivity|].
  destruct (upload_request_shape cpython_default_digits client0
              "/tmp/report.pdf" (Some "") (Some ["a"; "b"])
              (world0 (always resp_202_doc)) eq_refl)
    as (req & Hsent & _ & _ & _ & _ & _ & Hdata).
  exists req. split; [exact Hsent|].
  intros data Hd. destruct (Hdata data Hd) as (Ht & Hg & _).
  split; [exact Ht|exact Hg].
Defined.

Lemma upload_document_returns_iff_witness :
  fs (world0 (always resp_202_doc)) !! "/tmp/report.pdf"
    = Some (RegularFile true)
  ∧ (upload_document cpython_default_digits client0 "/tmp/report.pdf"
       None None (world0 (always resp_202_doc))).1
    = Ok (uploaded_document
            {[ "id" := JStr "doc_1"; "status" := JStr "processing" ]}
            (JStr "doc_1") (JStr "processing")).
Proof.
  split; [reflexivity|].
  apply (upload_document_returns_iff cpython_default_digits client0
           "/tmp/report.pdf" None None (world0 (always resp_202_doc)) _
           eq_refl).
  eexists.
  exists resp_202_doc,
    {[ "id" := JStr "doc_1"; "status" := JStr "processing" ]},
    (JStr "doc_1"), (JStr "processing").
  split; [vm_compute; reflexivity|]. repeat split.
Defined.

Lemma success_with_non_object_body_witness :
  next_response (world0 (always resp_200_list_body)) resp_200_list_body
  ∧ (get_document cpython_default_digits client0 "doc_1"
       (world0 (always resp_200_list_body))).1 = Raise TypeError
  ∧ (get_context_rail cpython_default_digits client0 "q_123"
       (world0 (always resp_200_list_body))).1 = Raise AttributeError.
Proof.
  split; [apply always_next_response|].
  destruct (success_with_non_object_body cpython_default_digits client0
              (world0 (always resp_200_list_body)) resp_200_list_body
              (JArr []) (always_next_response _) eq_refl eq_refl
              ltac:(discriminate))
    as (_ & Hget & _ & Hrail & _).
  split; [apply Hget|apply Hrail].
Defined.

Lemma transport_failure_propagates_witness :
  next_fails world_offline
  ∧ (query cpython_default_digits client0 "what" None None 3
       (S754_zero false) world_offline).1 = Raise TransportError
  ∧ length (sent (query cpython_default_digits client0 "what" None None 3
                    (S754_zero false) world_offline).2) = 1%nat.
Proof.
  assert (H : next_fails world_offline) by (intros req; reflexivity).
  split; [exact H|].
  destruct (transport_failure_propagates cpython_default_digits client0
              world_offline H) as (_ & _ & Hq & _).
  exact (Hq "what" None None 3 (S754_zero false)).
Defined.

Lemma query_fails_on_source_without_document_id_witness :
  next_response (world0 (always resp_200_source_without_id))
    resp_200_source_without_id
  ∧ (query cpython_default_digits client0 "what" None None 3
       (S754_zero false) (world0 (always resp_200_source_without_id))).1
    = Raise (KeyError "document_id").
Proof.
  split; [apply always_next_response|].
  eapply (query_fails_on_source_without_document_id cpython_default_digits
            client0 "what" None None 3 (S754_zero false) _
            resp_200_source_without_id _
            [ JObj {[ "document_id" := JStr "doc_b" ]};
              JObj {[ "page" := JInt 2 ]} ]
            (always_next_response _) eq_refl eq_refl eq_refl).
  - repeat constructor; by eexists.
  - apply Exists_cons_tl, Exists_cons_hd. eexists. split; reflexivity.
Defined.

Lemma query_answer_computed :
  query cpython_default_digits client0 "what" None None 3 (S754_zero false)
    (world0 (always resp_200_answer))
  = (Ok answer_result,
     log_request query_request_what (world0 (always resp_200_answer))).
Proof. vm_compute. reflexivity. Defined.

Lemma query_sources_are_terse_witness :
  query cpython_default_digits client0 "what" None None 3 (S754_zero false)
    (world0 (always resp_200_answer))
  = (Ok answer_result,
     log_request query_request_what (world0 (always resp_200_answer)))
  ∧ Forall terse (QueryResult.sources answer_result).
Proof.
  split; [exact query_answer_computed|].
  exact (query_sources_are_terse cpython_default_digits _ _ _ _ _ _ _ _ _
           query_answer_computed).
Defined.

Lemma query_result_fields_are_the_body_s_witness :
  query cpython_default_digits client0 "what" None None 3 (S754_zero false)
    (world0 (always resp_200_answer))
  = (Ok answer_result,
     log_request query_request_what (world0 (always resp_200_answer)))
  ∧ ∃ r d, response_json r = Some (JObj d)
         ∧ d !! "confidence_score"
           = Some (QueryResult.confidence_score answer_result).
Proof.
  split; [exact query_answer_computed|].
  destruct (query_result_fields_are_the_body_s cpython_default_digits
              _ _ _ _ _ _ _ _ _ query_answer_computed)
    as (r & d & _ & Hb & _ & _ & _ & Hc & _).
  exists r, d. split; [exact Hb|exact Hc].
Defined.

Lemma context_rail_computed :
  get_context_rail cpython_default_digits client0 "q_123"
    (world0 (always resp_200_rail))
  = (Ok rail_result,
     log_request
       (bare_request GET "https://api.sens.ai/v1/context-rail/q_123")
       (world0 (always resp_200_rail))).
Proof. vm_compute. reflexivity. Defined.

Lemma context_rail_follows_the_body_witness :
  get_context_rail cpython_default_digits client0 "q_123"
    (world0 (always resp_200_rail))
  = (Ok rail_result,
     log_request
       (bare_request GET "https://api.sens.ai/v1/context-rail/q_123")
       (world0 (always resp_200_rail)))
  ∧ ∃ r d, response_json r = Some (JObj d)
         ∧ ContextRail.summary rail_result
           = default (JObj ∅) (d !! "summary").
Proof.
  split; [exact context_rail_computed|].
  destruct (context_rail_follows_the_body cpython_default_digits
              _ _ _ _ _ context_rail_computed)
    as (r & d & _ & _ & Hb & _ & _ & _ & Hsum & _).
  exists r, d. split; [exact Hb|exact Hsum].
Defined.

Lemma constructed_client_invariant_witness :
  SensClient_init None "https://api.sens.ai/v1//" 30 world_with_key
    = (Ok (client_with_key "sens_sk_env" "https://api.sens.ai/v1//" 30),
       world_with_key)
  ∧ base_url (client_with_key "sens_sk_env" "https://api.sens.ai/v1//" 30)
    = "https://api.sens.ai/v1"
  ∧ api_key (client_with_key "sens_sk_env" "https://api.sens.ai/v1//" 30)
    ≠ "".
Proof.
  assert (H : SensClient_init None "https://api.sens.ai/v1//" 30
                world_with_key
    = (Ok (client_with_key "sens_sk_env" "https://api.sens.ai/v1//" 30),
       world_with_key)) by reflexivity.
  split; [exact H|].
  destruct (constructed_client_invariant _ _ _ _ _ _ H)
    as (_ & Hk & _ & Hb & _).
  split; [exact Hb|exact Hk].
Defined.
